(** * gh-checks-to-irc: the webhook handler of [handler.py]

    A shallow embedding of [src/handler.py] and the properties of its
    decision pipeline.

    - JSON values produced by [json.loads] are the inductive type [json];
      a JSON object is a [gmap string json], as a Python [dict] is.
    - [print] is the only effect besides raising: a computation is a pair
      of the lines it printed and either a value or the exception raised
      (the monad [M]).
    - [json.loads], and Python's [repr] of strings, of the Lambda event and
      of JSON values, are library code: they are parameters of the
      development (Section variables and the class [Repr]). *)

From stdpp Require Import gmap strings list fin_maps pretty.
From Stdlib Require Import ZArith SpecFloat Ascii.

Set Warnings "-register-all".
Set Default Proof Using "Type".
Open Scope string_scope.
Open Scope list_scope.
Open Scope Z_scope.

(** ** JSON values, as [json.loads] builds them *)

(** [JFloat] carries the value of a Python float, [(-1)^s * m * 2^e] when
    finite; [JInt] is a Python [int] (unbounded). *)
Inductive json : Type :=
| JNull
| JBool (b : bool)
| JInt (z : Z)
| JFloat (f : spec_float)
| JStr (s : string)
| JArr (l : list json)
| JObj (o : gmap string json).

(** ** Exceptions and results *)

Inductive exn : Type :=
| KeyError (k : string)
| TypeError
| ValueError
| IndexError
| NotModelled.

Inductive result (A : Type) : Type :=
| Ret (a : A)
| Raise (e : exn).
Arguments Ret {A} a.
Arguments Raise {A} e.

(** The lines printed so far, and how the computation ended. *)
Definition M (A : Type) : Type := (list string * result A)%type.

Definition M_ret {A} (a : A) : M A := ([], Ret a).

Definition M_bind {A B} (f : A → M B) (m : M A) : M B :=
  match m with
  | (out, Ret a) => let '(out', r) := f a in (out ++ out', r)
  | (out, Raise e) => (out, Raise e)
  end.

#[global] Instance M_mret : MRet M := @M_ret.
#[global] Instance M_mbind : MBind M := @M_bind.

(** An expression that prints nothing. *)
Definition lift {A} (r : result A) : M A := ([], r).

Definition printed {A} (m : M A) : list string := m.1.
Definition outcome {A} (m : M A) : result A := m.2.

(** ** Python operations on JSON values *)

(** [v[k]] for a [str] key: only a [dict] can be indexed by a string. *)
Definition getitem (v : json) (k : string) : result json :=
  match v with
  | JObj o => match o !! k with
              | Some x => Ret x
              | None => Raise (KeyError k)
              end
  | _ => Raise TypeError
  end.

(** The chained subscript [v[k1][k2]...], read from left to right. *)
Fixpoint getpath (v : json) (ks : list string) : result json :=
  match ks with
  | [] => Ret v
  | k :: ks' =>
      match getitem v k with
      | Ret x => getpath x ks'
      | Raise e => Raise e
      end
  end.

(** [v == s] for a [str] [s]: values of other types are never equal to it. *)
Definition eq_str (v : json) (s : string) : bool :=
  match v with
  | JStr t => String.eqb t s
  | _ => false
  end.

(** The exact comparison of a float with an [int]. *)
Definition float_eq_int (f : spec_float) (z : Z) : bool :=
  match f with
  | S754_zero _ => z =? 0
  | S754_finite s m e =>
      let v := if s then Z.neg m else Z.pos m in
      if 0 <=? e then v * 2 ^ e =? z else v =? z * 2 ^ (- e)
  | _ => false
  end.

(** [v == z] for an [int] [z]: [True == 1], [False == 0], and a float is
    equal to the integer of the same value. *)
Definition eq_int (v : json) (z : Z) : bool :=
  match v with
  | JInt n => n =? z
  | JBool b => Z.b2z b =? z
  | JFloat f => float_eq_int f z
  | _ => false
  end.

(** [v in l]: a linear scan with [==]. *)
Definition in_strs (v : json) (l : list string) : bool := existsb (eq_str v) l.
Definition in_ints (v : json) (l : list Z) : bool := existsb (eq_int v) l.

(** Truth value of a JSON value ([if v:]). *)
Definition truthy (v : json) : bool :=
  match v with
  | JNull => false
  | JBool b => b
  | JInt z => negb (z =? 0)
  | JFloat (S754_zero _) => false
  | JFloat _ => true
  | JStr s => negb (String.eqb s "")
  | JArr l => match l with [] => false | _ => true end
  | JObj o => negb (bool_decide (o = ∅))
  end.

(** Truth value of an [Optional] variable: [None] is false. *)
Definition truthy_opt (v : option json) : bool :=
  match v with
  | None => false
  | Some x => truthy x
  end.

Fixpoint chars (s : string) : list json :=
  match s with
  | EmptyString => []
  | String c s' => JStr (String c EmptyString) :: chars s'
  end.

(** [for x in v]: the elements of a list, the characters of a string, the
    keys of a dict; other values are not iterable. The keys come in the
    order of the map, not in Python's insertion order: they are all
    strings, which is all the handler's loop can tell (it indexes each
    element by a string, and a string cannot be indexed so). *)
Definition py_iter (v : json) : result (list json) :=
  match v with
  | JArr l => Ret l
  | JStr s => Ret (chars s)
  | JObj o => Ret (JStr <$> (map_to_list o).*1)
  | _ => Raise TypeError
  end.

(** The length of the slice [x[:n]] of a sequence of length [len]: a
    negative [n] counts from the end. *)
Definition slice_stop (len : nat) (n : Z) : nat :=
  if 0 <=? n then Nat.min (Z.to_nat n) len
  else Z.to_nat (Z.of_nat len + n).

(** [v[:n]]: strings and lists can be sliced. *)
Definition py_slice_to (v : json) (n : Z) : result json :=
  match v with
  | JStr s => Ret (JStr (String.substring 0 (slice_stop (String.length s) n) s))
  | JArr l => Ret (JArr (take (slice_stop (length l) n) l))
  | _ => Raise TypeError
  end.

(** ** [repr] and [str] *)

(** Python's [repr(x)]. *)
Class Repr (A : Type) := repr : A → string.

(** [repr] of a list of integers: [[23038334, 33104844]]. *)
#[global] Instance repr_ints : Repr (list Z) :=
  λ l, "[" +:+ String.concat ", " (pretty <$> l) +:+ "]".

(** [str(v)], which is what an f-string and [str.format] put in place of a
    replacement field without a format spec. *)
Definition py_str `{!Repr json} (v : json) : string :=
  match v with
  | JStr s => s
  | JInt z => pretty z
  | JBool true => "True"
  | JBool false => "False"
  | JNull => "None"
  | _ => repr v
  end.

(** Sequencing of expressions that can raise but print nothing. *)
Definition result_bind {A B} (f : A → result B) (r : result A) : result B :=
  match r with
  | Ret a => f a
  | Raise e => Raise e
  end.

#[global] Instance result_mret : MRet result := @Ret.
#[global] Instance result_mbind : MBind result := @result_bind.
#[global] Instance result_fmap : FMap result :=
  λ A B f r, match r with Ret a => Ret (f a) | Raise e => Raise e end.

(** ** [str.format] with keyword arguments

    The replacement fields this model covers are plain names, [{name}],
    and the escapes [{{] and [}}]. A field with a conversion ([!r]), a
    format spec ([:>8]), an attribute or an index is reported as
    [NotModelled]; no statement below is about such a template. *)

Definition field_syntax (c : Ascii.ascii) : bool :=
  existsb (Ascii.eqb c) ["{"; "!"; ":"; "."; "["; "]"]%char.

Fixpoint all_digits (s : string) : bool :=
  match s with
  | EmptyString => true
  | String c s' => (Ascii.leb "0" c && Ascii.leb c "9" && all_digits s')%char
  end.

Fixpoint kw_lookup (kw : list (string * string)) (name : string) : option string :=
  match kw with
  | [] => None
  | (k, v) :: kw' => if String.eqb k name then Some v else kw_lookup kw' name
  end.

(** The value of the field [name]: an empty or numeric name is a positional
    argument, and none was passed; an unknown name is a [KeyError]. *)
Definition get_field (kw : list (string * string)) (name : string) : result string :=
  if all_digits name then Raise IndexError
  else match kw_lookup kw name with
       | Some v => Ret v
       | None => Raise (KeyError name)
       end.

(** [field] is [Some name] while the characters of a replacement field are
    being read, [name] being those read so far. *)
Fixpoint format_go (kw : list (string * string)) (field : option string)
    (t : string) : result string :=
  match t with
  | EmptyString =>
      match field with
      | None => Ret EmptyString
      | Some _ => Raise ValueError
      end
  | String c t' =>
      match field with
      | None =>
          if Ascii.eqb c "{"%char then
            match t' with
            | String c' t'' =>
                if Ascii.eqb c' "{"%char then String c <$> format_go kw None t''
                else format_go kw (Some EmptyString) t'
            | EmptyString => Raise ValueError
            end
          else if Ascii.eqb c "}"%char then
            match t' with
            | String c' t'' =>
                if Ascii.eqb c' "}"%char then String c <$> format_go kw None t''
                else Raise ValueError
            | EmptyString => Raise ValueError
            end
          else String c <$> format_go kw None t'
      | Some name =>
          if Ascii.eqb c "}"%char then
            v ← get_field kw name;
            rest ← format_go kw None t';
            mret (v +:+ rest)
          else if field_syntax c then Raise NotModelled
          else format_go kw (Some (name +:+ String c EmptyString)) t'
      end
  end.

Definition format (template : string) (kw : list (string * string)) : result string :=
  format_go kw None template.

(** ** [json.dumps] of a [dict] of strings

    The separators are [", "] and [": "]; with [ensure_ascii] every
    character outside the printable ASCII range is escaped. A character is
    what [ascii] holds (a code point below 256). *)

Definition dquote : string := String (Ascii.ascii_of_nat 34) EmptyString.
Definition backslash : string := String (Ascii.ascii_of_nat 92) EmptyString.

Definition hex_digit (n : nat) : string :=
  String.substring n 1 "0123456789abcdef".

Definition escape_char (c : Ascii.ascii) : string :=
  let n := Ascii.nat_of_ascii c in
  if Nat.eqb n 34 then backslash +:+ dquote
  else if Nat.eqb n 92 then backslash +:+ backslash
  else if Nat.eqb n 10 then backslash +:+ "n"
  else if Nat.eqb n 13 then backslash +:+ "r"
  else if Nat.eqb n 9 then backslash +:+ "t"
  else if Nat.eqb n 8 then backslash +:+ "b"
  else if Nat.eqb n 12 then backslash +:+ "f"
  else if Nat.leb 32 n && Nat.leb n 126 then String c EmptyString
  else backslash +:+ "u00" +:+ hex_digit (n / 16)%nat +:+ hex_digit (n mod 16)%nat.

Fixpoint escape (s : string) : string :=
  match s with
  | EmptyString => EmptyString
  | String c s' => escape_char c +:+ escape s'
  end.

Definition dumps_str (s : string) : string := dquote +:+ escape s +:+ dquote.

Definition json_dumps (d : list (string * string)) : string :=
  "{" +:+ String.concat ", " ((λ kv, dumps_str kv.1 +:+ ": " +:+ dumps_str kv.2) <$> d) +:+ "}".

(** ** The data of [handler.py] *)

Record Config : Type := {
  repos : list Z;
  branches : list string;
  conclusions : list string;
  watch_prs : bool;
  sha_length : Z;
  message_template : string
}.

(** The module-level [config]; the handler reads it as a global, the model
    passes it as an argument. *)
Definition config : Config := {|
  repos := [23038334; 33104844];
  branches := ["master"; "github-actions"];
  conclusions := ["failure"; "action_required"; "timed_out"];
  watch_prs := true;
  sha_length := 8;
  message_template :=
    "Build {conclusion} at {commit_desc} (by {committer}). Details: {commit_html_url}"
|}.

(** The request: the field [body] of the source is [event_body] here, since
    [LambdaResponse] has a field of the same name. *)
Record LambdaHTTPEvent : Type := {
  headers : gmap string string;
  multiValueHeaders : gmap string (list string);
  httpMethod : string;
  path : string;
  event_body : string
}.

Record LambdaResponse : Type := {
  statusCode : Z;
  body : string
}.

(** [repr] of the response dict, [{'statusCode': 200, 'body': '...'}]. *)
#[global] Instance repr_response `{!Repr string} : Repr LambdaResponse :=
  λ resp, "{'statusCode': " +:+ pretty (statusCode resp)
          +:+ ", 'body': " +:+ repr (body resp) +:+ "}".

(** The literal tuple of line 158. *)
Definition alertable : list string := ["failure"; "action_required"; "timed_out"].

(** ** The handler

    [json.loads] is a parameter: on a body that is not well-formed JSON it
    gives the text of the [JSONDecodeError] it raises ([inl]).  The body of
    [handler] is cut at the blank lines of the source into consecutive
    blocks, each ending by running the next: [handler] (lines 136-148),
    [screen] (150-166), [select] (168-183) and [respond] (185-209); the
    [for] loop of lines 173-177 is [find_matching_pr]. *)

Section Handler.

Context (json_loads : string → string + json).
Context `{!Repr string, !Repr json, !Repr LambdaHTTPEvent}.
Context {Any : Type}.

Definition debug (msg : string) : M () := (["DEBUG: " +:+ msg], Ret ()).

Definition send_reply (resp : LambdaResponse) : M LambdaResponse :=
  debug ("Sending reply: " +:+ repr resp);;
  mret resp.

Definition error (msg : string) : M LambdaResponse :=
  send_reply {| statusCode := 400; body := msg |}.

Definition ok (msg : string) : M LambdaResponse :=
  send_reply {| statusCode := 200; body := msg |}.

(** Lines 173-177: the first element whose [base.repo.id] is watched ends
    the loop. *)
Fixpoint find_matching_pr (cfg : Config) (prs : list json) : M (option json) :=
  match prs with
  | [] => mret None
  | pr :: prs' =>
      id ← lift (getpath pr ["base"; "repo"; "id"]);
      if in_ints id (repos cfg) then
        debug ("PR " +:+ py_str pr +:+ " is a match");;
        mret (Some pr)
      else find_matching_pr cfg prs'
  end.

(** Lines 189-198: [commit_desc] and [commit_html_url]. *)
Definition commit_vars (cfg : Config) (check_suite : json)
    (matching_pr : option json) (branch owner_base_url repo_name : json)
    : result (string * string) :=
  let on_branch : result (string * string) :=
    head_sha ← getitem check_suite "head_sha";
    sha ← py_slice_to head_sha (sha_length cfg);
    mret (py_str sha +:+ " (branch " +:+ py_str branch +:+ ")",
          py_str owner_base_url +:+ "/" +:+ py_str repo_name +:+ "/commit/"
            +:+ py_str sha) in
  match matching_pr with
  | Some pr =>
      if truthy pr then
        pr_num ← getitem pr "number";
        mret ("PR #" +:+ py_str pr_num,
              py_str owner_base_url +:+ "/" +:+ py_str repo_name +:+ "/pull/"
                +:+ py_str pr_num +:+ "#partial-pull-merging")
      else on_branch
  | None => on_branch
  end.

(** Lines 185-209. *)
Definition respond (cfg : Config) (body check_suite conclusion : json)
    (matching_pr : option json) (branch : json) : M LambdaResponse :=
  owner_base_url ← lift (getpath body ["repository"; "owner"; "html_url"]);
  repo_name ← lift (getpath body ["repository"; "name"]);
  committer ← lift (getpath check_suite ["head_commit"; "committer"; "name"]);
  vars ← lift (commit_vars cfg check_suite matching_pr branch
                 owner_base_url repo_name);
  message ← lift (format (message_template cfg)
                    [("conclusion", py_str conclusion);
                     ("commit_desc", vars.1);
                     ("committer", py_str committer);
                     ("commit_html_url", vars.2)]);
  debug ("Message is: " +:+ message);;
  ok (json_dumps [("message", "We cared about this message!")]).

(** Lines 168-183. *)
Definition select (cfg : Config) (body check_suite conclusion : json)
    : M LambdaResponse :=
  matching_pr ←
    (if watch_prs cfg then
       debug ("Looking for PRs in " +:+ repr (repos cfg));;
       pull_requests ← lift (getitem check_suite "pull_requests");
       prs ← lift (py_iter pull_requests);
       find_matching_pr cfg prs
     else mret None);
  branch ← lift (getitem check_suite "head_branch");
  if negb (truthy_opt matching_pr) then
    if negb (in_strs branch (branches cfg)) then
      ok "Ignored based on no matching PR/branch"
    else
      debug ("Alerting on branch " +:+ py_str branch);;
      respond cfg body check_suite conclusion matching_pr branch
  else respond cfg body check_suite conclusion matching_pr branch.

(** Lines 150-166. *)
Definition screen (cfg : Config) (body : json) : M LambdaResponse :=
  action ← lift (getitem body "action");
  if negb (eq_str action "completed") then
    ok "Ignored based on action != completed"
  else
    check_suite ← lift (getitem body "check_suite");
    status ← lift (getitem check_suite "status");
    if negb (eq_str status "completed") then
      ok "Ignored based on check_suite status != completed"
    else
      conclusion ← lift (getitem check_suite "conclusion");
      if negb (in_strs conclusion alertable) then
        ok "Ignored based on check_suite conclusion not in ('failure', 'action_required', 'timed_out')"
      else
        base_repo_id ← lift (getpath body ["repository"; "id"]);
        if negb (in_ints base_repo_id (repos cfg)) then
          ok ("Ignored based on non-watched base repository ("
              +:+ py_str base_repo_id +:+ ")")
        else select cfg body check_suite conclusion.

(** Lines 135-148. *)
Definition handler (cfg : Config) (event : LambdaHTTPEvent) (context : Any)
    : M LambdaResponse :=
  debug ("Hello. Event: " +:+ repr event);;
  match headers event !! "X-GitHub-Event" with
  | None => error "Missing X-GitHub-Event header"
  | Some event_type =>
      if negb (String.eqb event_type "check_suite") then
        ok "Ignored based on X-GitHub-Event value"
      else
        match json_loads (event_body event) with
        | inl e => error ("Couldn't parse body (" +:+ e +:+ ")")
        | inr body => screen cfg body
        end
  end.

End Handler.

(** ** Sample requests

    Bodies are written with ['] where JSON has a double quote; [json_text]
    puts the double quotes back. *)

Definition json_text (s : string) : string :=
  String.string_of_list_ascii
    ((λ c, if Ascii.eqb c "'" then Ascii.ascii_of_nat 34 else c)
       <$> String.list_ascii_of_string s).

Definition sample_sha : string := "0123456789abcdef0123456789abcdef01234567".

Definition sample_repository : json :=
  JObj (<["id" := JInt 23038334]>
       (<["name" := JStr "crawl"]>
       (<["owner" := JObj {["html_url" := JStr "https://github.com/crawl"]}]> ∅))).

Definition sample_pr (number repo_id : Z) : json :=
  JObj (<["number" := JInt number]>
       (<["base" := JObj {["repo" := JObj {["id" := JInt repo_id]}]}]> ∅)).

Definition sample_suite (conclusion : string) (pull_requests : list json) : json :=
  JObj (<["status" := JStr "completed"]>
       (<["conclusion" := JStr conclusion]>
       (<["head_branch" := JStr "master"]>
       (<["head_sha" := JStr sample_sha]>
       (<["pull_requests" := JArr pull_requests]>
       (<["head_commit" := JObj {["committer" := JObj {["name" := JStr "Alice"]}]}]>
        ∅)))))).

Definition sample_payload (conclusion : string) (pull_requests : list json) : json :=
  JObj (<["action" := JStr "completed"]>
       (<["check_suite" := sample_suite conclusion pull_requests]>
       (<["repository" := sample_repository]> ∅))).

(** A commit on [master] of crawl/crawl failed; no pull request. *)
Definition branch_body : string := json_text
  "{'action': 'completed', 'check_suite': {'status': 'completed', 'conclusion': 'failure', 'head_branch': 'master', 'head_sha': '0123456789abcdef0123456789abcdef01234567', 'pull_requests': [], 'head_commit': {'committer': {'name': 'Alice'}}}, 'repository': {'id': 23038334, 'name': 'crawl', 'owner': {'html_url': 'https://github.com/crawl'}}}".

(** The same with three pull requests: #7 against another repository, then
    #42 and #43 against crawl/crawl. *)
Definition pr_body : string := json_text
  "{'action': 'completed', 'check_suite': {'status': 'completed', 'conclusion': 'failure', 'head_branch': 'master', 'head_sha': '0123456789abcdef0123456789abcdef01234567', 'pull_requests': [{'number': 7, 'base': {'repo': {'id': 5}}}, {'number': 42, 'base': {'repo': {'id': 23038334}}}, {'number': 43, 'base': {'repo': {'id': 23038334}}}], 'head_commit': {'committer': {'name': 'Alice'}}}, 'repository': {'id': 23038334, 'name': 'crawl', 'owner': {'html_url': 'https://github.com/crawl'}}}".

Definition sample_prs : list json :=
  [sample_pr 7 5; sample_pr 42 23038334; sample_pr 43 23038334].

(** The same as [branch_body] with the conclusion [cancelled]. *)
Definition cancelled_body : string := json_text
  "{'action': 'completed', 'check_suite': {'status': 'completed', 'conclusion': 'cancelled', 'head_branch': 'master', 'head_sha': '0123456789abcdef0123456789abcdef01234567', 'pull_requests': [], 'head_commit': {'committer': {'name': 'Alice'}}}, 'repository': {'id': 23038334, 'name': 'crawl', 'owner': {'html_url': 'https://github.com/crawl'}}}".

(** Payloads that carry only the fields the first steps read. *)
Definition requested_body : string := json_text "{'action': 'requested'}".
Definition requested_payload : json := JObj {["action" := JStr "requested"]}.

Definition unwatched_body : string := json_text
  "{'action': 'completed', 'check_suite': {'status': 'completed', 'conclusion': 'failure'}, 'repository': {'id': 1}}".
Definition unwatched_payload : json :=
  JObj (<["action" := JStr "completed"]>
       (<["check_suite" := JObj (<["status" := JStr "completed"]>
                                (<["conclusion" := JStr "failure"]> ∅))]>
       (<["repository" := JObj {["id" := JInt 1]}]> ∅))).

(** [cancelled_body] without the fields that only the later steps read. *)
Definition stripped_body : string := json_text
  "{'action': 'completed', 'check_suite': {'status': 'completed', 'conclusion': 'cancelled'}, 'repository': {'id': 23038334}}".
Definition stripped_payload : json :=
  JObj (<["action" := JStr "completed"]>
       (<["check_suite" := JObj (<["status" := JStr "completed"]>
                                (<["conclusion" := JStr "cancelled"]> ∅))]>
       (<["repository" := JObj {["id" := JInt 23038334]}]> ∅))).

(** What [json.loads] gives on the sample bodies; any other body stands
    for one that is ill-formed from its first character on, such as [oops]. *)
Definition sample_loads (s : string) : string + json :=
  if String.eqb s branch_body then inr (sample_payload "failure" [])
  else if String.eqb s pr_body then inr (sample_payload "failure" sample_prs)
  else if String.eqb s cancelled_body then inr (sample_payload "cancelled" [])
  else if String.eqb s requested_body then inr requested_payload
  else if String.eqb s unwatched_body then inr unwatched_payload
  else if String.eqb s stripped_body then inr stripped_payload
  else inl "Expecting value: line 1 column 1 (char 0)".

(** Stand-ins for Python's [repr] on the samples. *)
Definition sample_repr_string : Repr string := λ s, "'" +:+ s +:+ "'".
Definition sample_repr_json : Repr json := λ _, "<json>".
Definition sample_repr_event : Repr LambdaHTTPEvent := λ _, "<event>".

Definition sample_event (header_name : string) (body : string) : LambdaHTTPEvent := {|
  headers := {[header_name := "check_suite"]};
  multiValueHeaders := {[header_name := ["check_suite"]]};
  httpMethod := "POST";
  path := "/";
  event_body := body
|}.

(** The handler on a sample request. *)
Definition sample_run (cfg : Config) (event : LambdaHTTPEvent) : M LambdaResponse :=
  @handler sample_loads sample_repr_string sample_repr_json sample_repr_event
    () cfg event ().

(** [cfg] with another list of conclusions to post about. *)
Definition with_conclusions (l : list string) (cfg : Config) : Config := {|
  repos := repos cfg;
  branches := branches cfg;
  conclusions := l;
  watch_prs := watch_prs cfg;
  sha_length := sha_length cfg;
  message_template := message_template cfg
|}.

(** [config] with [cancelled] added to the conclusions to post about. *)
Definition config_cancelled : Config :=
  with_conclusions ("cancelled" :: conclusions config) config.

(** [config] with sha snippets of up to 64 characters. *)
Definition config_long_sha : Config := {|
  repos := repos config;
  branches := branches config;
  conclusions := conclusions config;
  watch_prs := watch_prs config;
  sha_length := 64;
  message_template := message_template config
|}.

(** ASCII lower case, for comparing header names regardless of case. *)
Definition lower_char (c : Ascii.ascii) : Ascii.ascii :=
  let n := Ascii.nat_of_ascii c in
  if Nat.leb 65 n && Nat.leb n 90 then Ascii.ascii_of_nat (n + 32) else c.

Fixpoint lower (s : string) : string :=
  match s with
  | EmptyString => EmptyString
  | String c s' => String (lower_char c) (lower s')
  end.

(** ** Stages of the pipeline, as predicates on the payload *)

(** [pr["base"]["repo"]["id"]] can be read and [id in config["repos"]] is [w]. *)
Definition base_watched (cfg : Config) (w : bool) (pr : json) : Prop :=
  ∃ id, getpath pr ["base"; "repo"; "id"] = Ret id ∧ in_ints id (repos cfg) = w.

(** The payload passes steps 1 to 4: [cs] is its check suite and
    [conclusion] the conclusion of [cs]. *)
Record screened (cfg : Config) (body cs : json) (conclusion : string) : Prop := {
  scr_action : getitem body "action" = Ret (JStr "completed");
  scr_suite : getitem body "check_suite" = Ret cs;
  scr_status : getitem cs "status" = Ret (JStr "completed");
  scr_conclusion : getitem cs "conclusion" = Ret (JStr conclusion);
  scr_alertable : in_strs (JStr conclusion) alertable = true;
  scr_repo : ∃ id, getpath body ["repository"; "id"] = Ret id
                   ∧ in_ints id (repos cfg) = true
}.

(** The fields lines 186-188 read. *)
Record described (body cs owner_base_url repo_name committer : json) : Prop := {
  dsc_owner : getpath body ["repository"; "owner"; "html_url"] = Ret owner_base_url;
  dsc_name : getpath body ["repository"; "name"] = Ret repo_name;
  dsc_committer : getpath cs ["head_commit"; "committer"; "name"] = Ret committer
}.

(** The loop of lines 171-177 leaves [matching_pr] at [None]: pull requests
    are not watched, or none of them is against a watched repository. *)
Definition no_matching_pr (cfg : Config) (cs : json) : Prop :=
  watch_prs cfg = false
  ∨ ∃ pull_requests prs,
      getitem cs "pull_requests" = Ret pull_requests
      ∧ py_iter pull_requests = Ret prs
      ∧ Forall (base_watched cfg false) prs.

(** A payload that fails one of the steps 1 to 4, and the reason it is
    ignored with. *)
Inductive early_failure `{!Repr json} (cfg : Config) (body : json) : string → Prop :=
| fails_action action :
    getitem body "action" = Ret action →
    eq_str action "completed" = false →
    early_failure cfg body "Ignored based on action != completed"
| fails_status cs status :
    getitem body "action" = Ret (JStr "completed") →
    getitem body "check_suite" = Ret cs →
    getitem cs "status" = Ret status →
    eq_str status "completed" = false →
    early_failure cfg body "Ignored based on check_suite status != completed"
| fails_conclusion cs conclusion :
    getitem body "action" = Ret (JStr "completed") →
    getitem body "check_suite" = Ret cs →
    getitem cs "status" = Ret (JStr "completed") →
    getitem cs "conclusion" = Ret conclusion →
    in_strs conclusion alertable = false →
    early_failure cfg body
      "Ignored based on check_suite conclusion not in ('failure', 'action_required', 'timed_out')"
| fails_repository cs conclusion id :
    getitem body "action" = Ret (JStr "completed") →
    getitem body "check_suite" = Ret cs →
    getitem cs "status" = Ret (JStr "completed") →
    getitem cs "conclusion" = Ret conclusion →
    in_strs conclusion alertable = true →
    getpath body ["repository"; "id"] = Ret id →
    in_ints id (repos cfg) = false →
    early_failure cfg body
      ("Ignored based on non-watched base repository (" +:+ py_str id +:+ ")").

(** The first failing step of a payload, in the order of the source, and
    the reason it is ignored with. *)
Inductive first_failure `{!Repr json} (cfg : Config) (body : json) : string → Prop :=
| fails_early reason :
    early_failure cfg body reason →
    first_failure cfg body reason
| fails_branch cs conclusion branch :
    screened cfg body cs conclusion →
    no_matching_pr cfg cs →
    getitem cs "head_branch" = Ret branch →
    in_strs branch (branches cfg) = false →
    first_failure cfg body "Ignored based on no matching PR/branch".

(** The payload without the fields that only the later steps read. *)
Definition without_keys (ks : list string) (v : json) : json :=
  match v with
  | JObj o => JObj (foldr delete o ks)
  | _ => v
  end.

Definition without_late_fields (body : json) : json :=
  match body with
  | JObj o =>
      JObj (alter (without_keys ["name"; "owner"]) "repository"
             (alter (without_keys ["pull_requests"; "head_branch"; "head_sha";
                                   "head_commit"]) "check_suite" o))
  | _ => body
  end.

(** The acknowledgement of line 208. *)
Definition acknowledgement : LambdaResponse :=
  {| statusCode := 200;
     body := json_dumps [("message", "We cared about this message!")] |}.

(** Lines 200-205: the message, from the resolved variables. *)
Definition alert_message `{!Repr json} (cfg : Config) (conclusion committer : json)
    (vars : string * string) : result string :=
  format (message_template cfg)
    [("conclusion", py_str conclusion); ("commit_desc", vars.1);
     ("committer", py_str committer); ("commit_html_url", vars.2)].

(** The line printed before the pull requests are scanned, if they are. *)
Definition looking (cfg : Config) : list string :=
  if watch_prs cfg then ["DEBUG: Looking for PRs in " +:+ repr (repos cfg)] else [].

(** An event of type [check_suite] whose body [json.loads] accepts. *)
Definition delivers (json_loads : string → string + json)
    (event : LambdaHTTPEvent) (payload : json) : Prop :=
  headers event !! "X-GitHub-Event" = Some "check_suite"
  ∧ json_loads (event_body event) = inr payload.

(** Lines 170-183 end with [matching_pr] and [branch] and go on to the
    alert: a pull request against a watched repository was found, or none
    was and the branch is watched. *)
Inductive selected (cfg : Config) (cs : json) : option json → json → Prop :=
| selected_pr pull_requests pre pr post branch :
    watch_prs cfg = true →
    getitem cs "pull_requests" = Ret pull_requests →
    py_iter pull_requests = Ret (pre ++ pr :: post) →
    Forall (base_watched cfg false) pre →
    base_watched cfg true pr →
    getitem cs "head_branch" = Ret branch →
    selected cfg cs (Some pr) branch
| selected_branch branch :
    no_matching_pr cfg cs →
    getitem cs "head_branch" = Ret branch →
    in_strs branch (branches cfg) = true →
    selected cfg cs None branch.

(** The paths of the fields that only the later steps read. *)
Definition late_fields : list (list string) :=
  [["check_suite"; "pull_requests"]; ["check_suite"; "head_branch"];
   ["check_suite"; "head_sha"]; ["check_suite"; "head_commit"];
   ["repository"; "name"]; ["repository"; "owner"]].

(** The replies the handler has: the two errors, the seven reasons to
    ignore an event, and the acknowledgement. *)
Inductive reply `{!Repr json} : LambdaResponse → Prop :=
| reply_missing :
    reply {| statusCode := 400; body := "Missing X-GitHub-Event header" |}
| reply_unparsable e :
    reply {| statusCode := 400; body := "Couldn't parse body (" +:+ e +:+ ")" |}
| reply_other_event :
    reply {| statusCode := 200; body := "Ignored based on X-GitHub-Event value" |}
| reply_action :
    reply {| statusCode := 200; body := "Ignored based on action != completed" |}
| reply_status :
    reply {| statusCode := 200;
             body := "Ignored based on check_suite status != completed" |}
| reply_conclusion :
    reply {| statusCode := 200;
             body := "Ignored based on check_suite conclusion not in ('failure', 'action_required', 'timed_out')" |}
| reply_repository id :
    reply {| statusCode := 200;
             body := "Ignored based on non-watched base repository ("
                     +:+ py_str id +:+ ")" |}
| reply_no_match :
    reply {| statusCode := 200; body := "Ignored based on no matching PR/branch" |}
| reply_alert :
    reply acknowledgement.


(** Text without [{] and [}]. *)
Fixpoint brace_free (t : string) : bool :=
  match t with
  | EmptyString => true
  | String c t' =>
      negb (Ascii.eqb c "{"%char) && negb (Ascii.eqb c "}"%char) && brace_free t'
  end.

(** A field name that [format] reads as a plain name. *)
Fixpoint plain_name (n : string) : bool :=
  match n with
  | EmptyString => true
  | String c n' =>
      negb (Ascii.eqb c "}"%char) && negb (field_syntax c) && plain_name n'
  end.

(** Bodies that are JSON but not check suite payloads: an empty list, and
    payloads whose pull requests or branch are not as the handler expects. *)
Definition list_body : string := "[]".
Definition empty_object_body : string := "{}".

Definition no_branch_suite : json :=
  JObj (<["status" := JStr "completed"]>
       (<["conclusion" := JStr "failure"]>
       (<["pull_requests" := JArr [sample_pr 42 23038334]]> ∅))).
Definition no_branch_payload : json :=
  JObj (<["action" := JStr "completed"]>
       (<["check_suite" := no_branch_suite]>
       (<["repository" := sample_repository]> ∅))).
Definition no_branch_body : string := json_text
  "{'action': 'completed', 'check_suite': {'status': 'completed', 'conclusion': 'failure', 'pull_requests': [{'number': 42, 'base': {'repo': {'id': 23038334}}}]}, 'repository': {'id': 23038334, 'name': 'crawl', 'owner': {'html_url': 'https://github.com/crawl'}}}".

(** A pull request without [base], before one against crawl/crawl. *)
Definition bare_pr : json := JObj {["number" := JInt 7]}.
Definition bare_pr_body : string := json_text
  "{'action': 'completed', 'check_suite': {'status': 'completed', 'conclusion': 'failure', 'head_branch': 'master', 'head_sha': '0123456789abcdef0123456789abcdef01234567', 'pull_requests': [{'number': 7}, {'number': 42, 'base': {'repo': {'id': 23038334}}}], 'head_commit': {'committer': {'name': 'Alice'}}}, 'repository': {'id': 23038334, 'name': 'crawl', 'owner': {'html_url': 'https://github.com/crawl'}}}".

Definition edge_loads (s : string) : string + json :=
  if String.eqb s list_body then inr (JArr [])
  else if String.eqb s empty_object_body then inr (JObj ∅)
  else if String.eqb s no_branch_body then inr no_branch_payload
  else if String.eqb s bare_pr_body
       then inr (sample_payload "failure" [bare_pr; sample_pr 42 23038334])
  else sample_loads s.

Definition edge_run (cfg : Config) (event : LambdaHTTPEvent) : M LambdaResponse :=
  @handler edge_loads sample_repr_string sample_repr_json sample_repr_event
    () cfg event ().

(** [config] with a template that names a variable the handler does not
    pass. *)
Definition config_unknown_field : Config := {|
  repos := repos config;
  branches := branches config;
  conclusions := conclusions config;
  watch_prs := watch_prs config;
  sha_length := sha_length config;
  message_template := "Build on {branch}: {conclusion}"
|}.

(** ** Properties *)

Section Properties.

Context (json_loads : string → string + json).
Context `{!Repr string, !Repr json, !Repr LambdaHTTPEvent}.
Context {Any : Type}.

(** *** Running a computation of [M] *)

Lemma bind_ret {A B} (a : A) (k : A → M B) : (lift (Ret a) ≫= k) = k a.
Proof. unfold mbind, M_mbind, M_bind, lift. by destruct (k a). Qed.

Lemma bind_raise {A B} (e : exn) (k : A → M B) :
  (lift (Raise e) ≫= k) = ([], Raise e).
Proof. reflexivity. Qed.

Lemma bind_debug {B} (msg : string) (k : () → M B) :
  (debug msg ≫= k) = (("DEBUG: " +:+ msg) :: (k ()).1, (k ()).2).
Proof. unfold mbind, M_mbind, M_bind, debug. by destruct (k ()). Qed.

Lemma bind_run {A B} (out : list string) (a : A) (k : A → M B) (m : M A) :
  m = (out, Ret a) → (m ≫= k) = (out ++ (k a).1, (k a).2).
Proof. intros ->. unfold mbind, M_mbind, M_bind. by destruct (k a). Qed.

Lemma ok_run (msg : string) :
  ok msg = (["DEBUG: Sending reply: " +:+ repr {| statusCode := 200; body := msg |}],
            Ret {| statusCode := 200; body := msg |}).
Proof. reflexivity. Qed.

Lemma error_run (msg : string) :
  error msg = (["DEBUG: Sending reply: " +:+ repr {| statusCode := 400; body := msg |}],
               Ret {| statusCode := 400; body := msg |}).
Proof. reflexivity. Qed.

(** *** Comparisons *)

Lemma eq_str_true (v : json) (s : string) : eq_str v s = true ↔ v = JStr s.
Proof.
  destruct v; simpl; try (split; [discriminate | congruence]).
  rewrite String.eqb_eq. split; congruence.
Qed.

Lemma in_strs_JStr (s : string) (l : list string) :
  in_strs (JStr s) l = true ↔ s ∈ l.
Proof.
  unfold in_strs. rewrite existsb_exists, list_elem_of_In. split.
  - intros (t & Hin & Heq). apply String.eqb_eq in Heq. by subst.
  - intros Hin. exists s. split; [done | apply String.eqb_refl].
Qed.

Lemma in_strs_true (v : json) (l : list string) :
  in_strs v l = true → ∃ s, v = JStr s ∧ s ∈ l.
Proof.
  unfold in_strs. rewrite existsb_exists. intros (t & Hin & Heq).
  apply eq_str_true in Heq. exists t. by rewrite <- list_elem_of_In in Hin.
Qed.

(** *** The loop over the pull requests *)

Lemma find_matching_pr_first (cfg : Config) (pre post : list json) (pr : json) :
  Forall (base_watched cfg false) pre →
  base_watched cfg true pr →
  find_matching_pr cfg (pre ++ pr :: post)
  = (["DEBUG: PR " +:+ py_str pr +:+ " is a match"], Ret (Some pr)).
Proof.
  intros Hpre (id & Hid & Hin). induction Hpre as [|p pre (i & Hi & Hout) _ IH].
  - cbn [app find_matching_pr]. rewrite Hid, bind_ret, Hin. reflexivity.
  - cbn [app find_matching_pr]. rewrite Hi, bind_ret, Hout. exact IH.
Qed.

Lemma find_matching_pr_none (cfg : Config) (prs : list json) :
  Forall (base_watched cfg false) prs →
  find_matching_pr cfg prs = ([], Ret None).
Proof.
  induction 1 as [|p prs (i & Hi & Hout) _ IH]; [reflexivity |].
  cbn [find_matching_pr]. rewrite Hi, bind_ret, Hout. exact IH.
Qed.

(** A value whose [base] can be read is a non-empty dict. *)
Lemma base_watched_truthy (cfg : Config) (w : bool) (pr : json) :
  base_watched cfg w pr → truthy pr = true.
Proof.
  intros (id & Hid & _). destruct pr as [| | | | | |o]; try discriminate.
  simpl. apply negb_true_iff, bool_decide_eq_false. intros ->.
  simpl in Hid. by rewrite lookup_empty in Hid.
Qed.

(** *** The blocks of [handler], one by one *)

Lemma respond_run (cfg : Config) (body cs conclusion : json)
    (matching_pr : option json) (branch owner_base_url repo_name committer : json)
    (vars : string * string) (message : string) :
  described body cs owner_base_url repo_name committer →
  commit_vars cfg cs matching_pr branch owner_base_url repo_name = Ret vars →
  alert_message cfg conclusion committer vars = Ret message →
  respond cfg body cs conclusion matching_pr branch
  = (["DEBUG: Message is: " +:+ message;
      "DEBUG: Sending reply: " +:+ repr acknowledgement], Ret acknowledgement).
Proof.
  intros [Howner Hname Hcommitter] Hvars Hmessage. unfold respond.
  rewrite Howner, bind_ret, Hname, bind_ret, Hcommitter, bind_ret.
  rewrite Hvars, bind_ret. unfold alert_message in Hmessage.
  rewrite Hmessage, bind_ret, bind_debug. reflexivity.
Qed.

Lemma select_pr_run (cfg : Config) (body cs conclusion pull_requests : json)
    (pre post : list json) (pr branch : json) :
  watch_prs cfg = true →
  getitem cs "pull_requests" = Ret pull_requests →
  py_iter pull_requests = Ret (pre ++ pr :: post) →
  Forall (base_watched cfg false) pre →
  base_watched cfg true pr →
  getitem cs "head_branch" = Ret branch →
  select cfg body cs conclusion
  = (looking cfg ++ ("DEBUG: PR " +:+ py_str pr +:+ " is a match")
       :: (respond cfg body cs conclusion (Some pr) branch).1,
     (respond cfg body cs conclusion (Some pr) branch).2).
Proof.
  intros Hwatch Hpulls Hiter Hpre Hpr Hbranch. unfold select, looking.
  rewrite Hwatch.
  rewrite (bind_run ["DEBUG: Looking for PRs in " +:+ repr (repos cfg);
                     "DEBUG: PR " +:+ py_str pr +:+ " is a match"] (Some pr)).
  - rewrite Hbranch, bind_ret. cbn [truthy_opt].
    rewrite (base_watched_truthy _ _ _ Hpr). reflexivity.
  - rewrite bind_debug, Hpulls, bind_ret, Hiter, bind_ret.
    by rewrite (find_matching_pr_first _ _ _ _ Hpre Hpr).
Qed.

Lemma no_matching_pr_run (cfg : Config) (cs : json) :
  no_matching_pr cfg cs →
  (if watch_prs cfg then
     debug ("Looking for PRs in " +:+ repr (repos cfg));;
     pull_requests ← lift (getitem cs "pull_requests");
     prs ← lift (py_iter pull_requests);
     find_matching_pr cfg prs
   else mret None) = (looking cfg, Ret None).
Proof.
  unfold looking. intros [-> | (pulls & prs & Hpulls & Hiter & Hnone)]; [done |].
  destruct (watch_prs cfg); [| done].
  rewrite bind_debug, Hpulls, bind_ret, Hiter, bind_ret.
  by rewrite (find_matching_pr_none _ _ Hnone).
Qed.

Lemma select_branch_run (cfg : Config) (body cs conclusion branch : json) :
  no_matching_pr cfg cs →
  getitem cs "head_branch" = Ret branch →
  in_strs branch (branches cfg) = true →
  select cfg body cs conclusion
  = (looking cfg ++ ("DEBUG: Alerting on branch " +:+ py_str branch)
       :: (respond cfg body cs conclusion None branch).1,
     (respond cfg body cs conclusion None branch).2).
Proof.
  intros Hnone Hbranch Hin. unfold select.
  rewrite (bind_run _ _ _ _ (no_matching_pr_run _ _ Hnone)).
  rewrite Hbranch, bind_ret. cbn [truthy_opt negb]. rewrite Hin. cbn [negb].
  by rewrite bind_debug.
Qed.

Lemma select_ignored_run (cfg : Config) (body cs conclusion branch : json) :
  no_matching_pr cfg cs →
  getitem cs "head_branch" = Ret branch →
  in_strs branch (branches cfg) = false →
  select cfg body cs conclusion
  = (looking cfg ++ (ok "Ignored based on no matching PR/branch").1,
     (ok "Ignored based on no matching PR/branch").2).
Proof.
  intros Hnone Hbranch Hin. unfold select.
  rewrite (bind_run _ _ _ _ (no_matching_pr_run _ _ Hnone)).
  rewrite Hbranch, bind_ret. cbn [truthy_opt negb]. by rewrite Hin.
Qed.

Lemma screen_pass (cfg : Config) (body cs : json) (conclusion : string) :
  screened cfg body cs conclusion →
  screen cfg body = select cfg body cs (JStr conclusion).
Proof.
  intros [Haction Hsuite Hstatus Hconclusion Halert (id & Hid & Hin)].
  unfold screen. rewrite Haction, bind_ret. cbn [eq_str]. rewrite String.eqb_refl.
  cbn [negb]. rewrite Hsuite, bind_ret, Hstatus, bind_ret. cbn [eq_str].
  rewrite String.eqb_refl. cbn [negb]. rewrite Hconclusion, bind_ret, Halert.
  cbn [negb]. by rewrite Hid, bind_ret, Hin.
Qed.

Lemma screen_early (cfg : Config) (body : json) (reason : string) :
  early_failure cfg body reason → screen cfg body = ok reason.
Proof.
  unfold screen. destruct 1 as
    [action Haction Hne
    |cs status Haction Hsuite Hstatus Hne
    |cs conclusion Haction Hsuite Hstatus Hconclusion Hout
    |cs conclusion id Haction Hsuite Hstatus Hconclusion Halert Hid Hout].
  - by rewrite Haction, bind_ret, Hne.
  - rewrite Haction, bind_ret. cbn [eq_str]. rewrite String.eqb_refl. cbn [negb].
    by rewrite Hsuite, bind_ret, Hstatus, bind_ret, Hne.
  - rewrite Haction, bind_ret. cbn [eq_str]. rewrite String.eqb_refl. cbn [negb].
    rewrite Hsuite, bind_ret, Hstatus, bind_ret. cbn [eq_str].
    rewrite String.eqb_refl. cbn [negb]. by rewrite Hconclusion, bind_ret, Hout.
  - rewrite Haction, bind_ret. cbn [eq_str]. rewrite String.eqb_refl. cbn [negb].
    rewrite Hsuite, bind_ret, Hstatus, bind_ret. cbn [eq_str].
    rewrite String.eqb_refl. cbn [negb]. rewrite Hconclusion, bind_ret, Halert.
    cbn [negb]. by rewrite Hid, bind_ret, Hout.
Qed.

Lemma handler_screen (cfg : Config) (event : LambdaHTTPEvent) (context : Any)
    (payload : json) :
  delivers json_loads event payload →
  handler json_loads cfg event context
  = (("DEBUG: Hello. Event: " +:+ repr event) :: (screen cfg payload).1,
     (screen cfg payload).2).
Proof.
  intros [Hheader Hloads]. unfold handler.
  rewrite bind_debug, Hheader, Hloads. reflexivity.
Qed.

(** *** Slices of the sha *)

Lemma substring_min (n : nat) (s : string) :
  String.substring 0 (Nat.min n (String.length s)) s = String.substring 0 n s.
Proof.
  revert n. induction s as [|c s IH]; intros [|n]; cbn; try reflexivity.
  f_equal. apply IH.
Qed.

Lemma substring_all (n : nat) (s : string) :
  (String.length s ≤ n)%nat → String.substring 0 n s = s.
Proof.
  revert n. induction s as [|c s IH]; intros [|n] Hle; cbn in *;
    try reflexivity; [lia |].
  f_equal. apply IH. lia.
Qed.

Lemma py_slice_to_prefix (s : string) (n : Z) :
  0 ≤ n →
  py_slice_to (JStr s) n = Ret (JStr (String.substring 0 (Z.to_nat n) s)).
Proof.
  intros Hn. unfold py_slice_to, slice_stop.
  destruct (Z.leb_spec 0 n) as [_ | ?]; [| lia]. by rewrite substring_min.
Qed.

Lemma py_slice_to_all (s : string) (n : Z) :
  Z.of_nat (String.length s) ≤ n → py_slice_to (JStr s) n = Ret (JStr s).
Proof.
  intros Hn. rewrite py_slice_to_prefix by lia.
  rewrite substring_all; [done | lia].
Qed.

Lemma commit_vars_pr (cfg : Config) (cs pr branch owner_base_url repo_name : json)
    (w : bool) (pr_num : json) :
  base_watched cfg w pr →
  getitem pr "number" = Ret pr_num →
  commit_vars cfg cs (Some pr) branch owner_base_url repo_name
  = Ret ("PR #" +:+ py_str pr_num,
         py_str owner_base_url +:+ "/" +:+ py_str repo_name +:+ "/pull/"
           +:+ py_str pr_num +:+ "#partial-pull-merging").
Proof.
  intros Hpr Hnum. unfold commit_vars.
  by rewrite (base_watched_truthy _ _ _ Hpr), Hnum.
Qed.

Lemma commit_vars_branch (cfg : Config) (cs owner_base_url repo_name : json)
    (b sha : string) :
  getitem cs "head_sha" = Ret (JStr sha) →
  0 ≤ sha_length cfg →
  commit_vars cfg cs None (JStr b) owner_base_url repo_name
  = Ret (String.substring 0 (Z.to_nat (sha_length cfg)) sha
           +:+ " (branch " +:+ b +:+ ")",
         py_str owner_base_url +:+ "/" +:+ py_str repo_name +:+ "/commit/"
           +:+ String.substring 0 (Z.to_nat (sha_length cfg)) sha).
Proof.
  intros Hsha Hlen. unfold commit_vars. rewrite Hsha. cbn [mbind result_mbind result_bind].
  by rewrite py_slice_to_prefix.
Qed.

(** *** Whole runs that end with the acknowledgement *)

Lemma handler_pr_run (cfg : Config) (event : LambdaHTTPEvent) (context : Any)
    (payload cs : json) (conclusion : string) (pull_requests : json)
    (pre post : list json) (pr branch owner_base_url repo_name committer : json)
    (vars : string * string) (message : string) :
  delivers json_loads event payload →
  screened cfg payload cs conclusion →
  watch_prs cfg = true →
  getitem cs "pull_requests" = Ret pull_requests →
  py_iter pull_requests = Ret (pre ++ pr :: post) →
  Forall (base_watched cfg false) pre →
  base_watched cfg true pr →
  getitem cs "head_branch" = Ret branch →
  described payload cs owner_base_url repo_name committer →
  commit_vars cfg cs (Some pr) branch owner_base_url repo_name = Ret vars →
  alert_message cfg (JStr conclusion) committer vars = Ret message →
  handler json_loads cfg event context
  = (("DEBUG: Hello. Event: " +:+ repr event)
       :: looking cfg
       ++ ["DEBUG: PR " +:+ py_str pr +:+ " is a match";
           "DEBUG: Message is: " +:+ message;
           "DEBUG: Sending reply: " +:+ repr acknowledgement],
     Ret acknowledgement).
Proof.
  intros Hdelivers Hscreened Hwatch Hpulls Hiter Hpre Hpr Hbranch Hdescribed
    Hvars Hmessage.
  rewrite (handler_screen _ _ _ _ Hdelivers), (screen_pass _ _ _ _ Hscreened).
  rewrite (select_pr_run _ _ _ _ _ _ _ _ _ Hwatch Hpulls Hiter Hpre Hpr Hbranch).
  by rewrite (respond_run _ _ _ _ _ _ _ _ _ _ _ Hdescribed Hvars Hmessage).
Qed.

Lemma handler_branch_run (cfg : Config) (event : LambdaHTTPEvent) (context : Any)
    (payload cs : json) (conclusion : string)
    (branch owner_base_url repo_name committer : json)
    (vars : string * string) (message : string) :
  delivers json_loads event payload →
  screened cfg payload cs conclusion →
  no_matching_pr cfg cs →
  getitem cs "head_branch" = Ret branch →
  in_strs branch (branches cfg) = true →
  described payload cs owner_base_url repo_name committer →
  commit_vars cfg cs None branch owner_base_url repo_name = Ret vars →
  alert_message cfg (JStr conclusion) committer vars = Ret message →
  handler json_loads cfg event context
  = (("DEBUG: Hello. Event: " +:+ repr event)
       :: looking cfg
       ++ ["DEBUG: Alerting on branch " +:+ py_str branch;
           "DEBUG: Message is: " +:+ message;
           "DEBUG: Sending reply: " +:+ repr acknowledgement],
     Ret acknowledgement).
Proof.
  intros Hdelivers Hscreened Hnone Hbranch Hin Hdescribed Hvars Hmessage.
  rewrite (handler_screen _ _ _ _ Hdelivers), (screen_pass _ _ _ _ Hscreened).
  rewrite (select_branch_run _ _ _ _ _ Hnone Hbranch Hin).
  by rewrite (respond_run _ _ _ _ _ _ _ _ _ _ _ Hdescribed Hvars Hmessage).
Qed.

(** *** Every reply past the header check *)

Lemma outcome_bind {A B} (m : M A) (k : A → M B) (r : B) :
  outcome (m ≫= k) = Ret r → ∃ a, outcome (k a) = Ret r.
Proof.
  destruct m as [out [a|e]]; unfold mbind, M_mbind, M_bind, outcome; cbn.
  - destruct (k a) as [out' r'] eqn:Hk. cbn. intros ->. exists a. by rewrite Hk.
  - discriminate.
Qed.

Lemma outcome_ok (msg : string) (r : LambdaResponse) :
  outcome (ok msg) = Ret r → statusCode r = 200.
Proof. unfold outcome. cbn. by intros [= <-]. Qed.

Ltac invert_run H :=
  repeat match type of H with
    | outcome (_ ≫= _) = Ret _ => apply outcome_bind in H as [? H]
    | outcome (if ?b then _ else _) = Ret _ => destruct b
    end.

Lemma respond_status (cfg : Config) (body cs conclusion : json)
    (matching_pr : option json) (branch : json) (r : LambdaResponse) :
  outcome (respond cfg body cs conclusion matching_pr branch) = Ret r →
  statusCode r = 200.
Proof.
  unfold respond. intros Hrun. invert_run Hrun. by apply outcome_ok in Hrun.
Qed.

Lemma select_status (cfg : Config) (body cs conclusion : json) (r : LambdaResponse) :
  outcome (select cfg body cs conclusion) = Ret r → statusCode r = 200.
Proof.
  unfold select. intros Hrun. invert_run Hrun;
    eauto using outcome_ok, respond_status.
Qed.

Lemma screen_status (cfg : Config) (body : json) (r : LambdaResponse) :
  outcome (screen cfg body) = Ret r → statusCode r = 200.
Proof.
  unfold screen. intros Hrun. invert_run Hrun;
    eauto using outcome_ok, select_status.
Qed.

(** *** Payloads without the fields of the later steps *)

Lemma getitem_without_keys (ks : list string) (v : json) (k : string) :
  k ∉ ks → getitem (without_keys ks v) k = getitem v k.
Proof.
  intros Hk. destruct v as [| | | | | |o]; try reflexivity. cbn.
  replace (foldr delete o ks !! k) with (o !! k); [done |].
  induction ks as [|k' ks IH]; [done |]. cbn.
  apply not_elem_of_cons in Hk as [Hne Hk].
  rewrite lookup_delete_ne by done. by apply IH.
Qed.

Lemma getitem_without_keys_absent (ks : list string) (v : json) (k : string) (x : json) :
  k ∈ ks → getitem (without_keys ks v) k ≠ Ret x.
Proof.
  intros Hk. destruct v as [| | | | | |o]; try discriminate. cbn.
  replace (foldr delete o ks !! k) with (@None json); [discriminate |].
  induction ks as [|k' ks IH]; [by apply elem_of_nil in Hk |]. cbn.
  destruct (decide (k' = k)) as [-> | Hne]; [by rewrite lookup_delete_eq |].
  rewrite lookup_delete_ne by done. apply IH.
  by apply elem_of_cons in Hk as [-> | Hk].
Qed.

Lemma getitem_without_late_other (body : json) (k : string) :
  k ≠ "repository" → k ≠ "check_suite" →
  getitem (without_late_fields body) k = getitem body k.
Proof.
  intros Hrepo Hsuite. destruct body as [| | | | | |o]; try reflexivity. cbn.
  by rewrite !lookup_alter_ne.
Qed.

Lemma getitem_without_late_suite (body cs : json) :
  getitem body "check_suite" = Ret cs →
  getitem (without_late_fields body) "check_suite"
  = Ret (without_keys ["pull_requests"; "head_branch"; "head_sha"; "head_commit"] cs).
Proof.
  destruct body as [| | | | | |o]; try discriminate. cbn.
  rewrite lookup_alter_ne by done. rewrite lookup_alter_eq.
  destruct (o !! "check_suite"); [| discriminate]. by intros [= ->].
Qed.

Lemma getitem_without_late_repository (body repository : json) :
  getitem body "repository" = Ret repository →
  getitem (without_late_fields body) "repository"
  = Ret (without_keys ["name"; "owner"] repository).
Proof.
  destruct body as [| | | | | |o]; try discriminate. cbn.
  rewrite lookup_alter_eq, lookup_alter_ne by done.
  destruct (o !! "repository"); [| discriminate]. by intros [= ->].
Qed.

Lemma getpath_without_late_id (body id : json) :
  getpath body ["repository"; "id"] = Ret id →
  getpath (without_late_fields body) ["repository"; "id"] = Ret id.
Proof.
  cbn [getpath]. destruct (getitem body "repository") as [repository|] eqn:Hrepo;
    [| discriminate].
  rewrite (getitem_without_late_repository _ _ Hrepo).
  rewrite getitem_without_keys; [done |].
  rewrite !not_elem_of_cons. repeat split; try done. apply not_elem_of_nil.
Qed.

Lemma early_failure_without_late (cfg : Config) (body : json) (reason : string) :
  early_failure cfg body reason →
  early_failure cfg (without_late_fields body) reason.
Proof.
  assert (Hkept : ∀ (cs : json) (k : string),
    k ∉ ["pull_requests"; "head_branch"; "head_sha"; "head_commit"] →
    getitem (without_keys ["pull_requests"; "head_branch"; "head_sha";
                           "head_commit"] cs) k = getitem cs k)
    by (intros; by apply getitem_without_keys).
  assert (Hstatus : "status" ∉ ["pull_requests"; "head_branch"; "head_sha"; "head_commit"]).
  { rewrite !not_elem_of_cons. repeat split; try done. apply not_elem_of_nil. }
  assert (Hconclusion : "conclusion" ∉ ["pull_requests"; "head_branch"; "head_sha"; "head_commit"]).
  { rewrite !not_elem_of_cons. repeat split; try done. apply not_elem_of_nil. }
  destruct 1 as
    [action Haction Hne
    |cs status Haction Hsuite Hst Hne
    |cs conclusion Haction Hsuite Hst Hcon Hout
    |cs conclusion id Haction Hsuite Hst Hcon Halert Hid Hout].
  - eapply fails_action; [| exact Hne]. by rewrite getitem_without_late_other.
  - eapply fails_status; [| by apply getitem_without_late_suite | | exact Hne].
    + by rewrite getitem_without_late_other.
    + by rewrite Hkept.
  - eapply fails_conclusion;
      [| by apply getitem_without_late_suite | | | exact Hout].
    + by rewrite getitem_without_late_other.
    + by rewrite Hkept.
    + by rewrite Hkept.
  - eapply fails_repository;
      [| by apply getitem_without_late_suite | | | exact Halert
       | by apply getpath_without_late_id | exact Hout].
    + by rewrite getitem_without_late_other.
    + by rewrite Hkept.
    + by rewrite Hkept.
Qed.

Lemma getpath_two (v : json) (k1 k2 : string) (x : json) :
  getpath v [k1; k2] = Ret x → ∃ y, getitem v k1 = Ret y ∧ getitem y k2 = Ret x.
Proof.
  cbn [getpath]. destruct (getitem v k1) as [y|]; [| discriminate].
  destruct (getitem y k2) as [z|] eqn:Hz; [| discriminate].
  intros [= ->]. by exists y.
Qed.

Lemma late_fields_absent (body : json) (ks : list string) (x : json) :
  ks ∈ late_fields → getpath (without_late_fields body) ks ≠ Ret x.
Proof.
  assert (Hsuite : ∀ v k, getitem (without_late_fields body) "check_suite" = Ret v →
    k ∈ ["pull_requests"; "head_branch"; "head_sha"; "head_commit"] →
    getitem v k ≠ Ret x).
  { intros v k Hv Hk. destruct body as [| | | | | |o]; try discriminate.
    cbn in Hv. rewrite lookup_alter_ne, lookup_alter_eq in Hv by done.
    destruct (o !! "check_suite") as [cs|]; [| discriminate].
    injection Hv as <-. by apply getitem_without_keys_absent. }
  assert (Hrepo : ∀ v k, getitem (without_late_fields body) "repository" = Ret v →
    k ∈ ["name"; "owner"] → getitem v k ≠ Ret x).
  { intros v k Hv Hk. destruct body as [| | | | | |o]; try discriminate.
    cbn in Hv. rewrite lookup_alter_eq, lookup_alter_ne in Hv by done.
    destruct (o !! "repository") as [cs|]; [| discriminate].
    injection Hv as <-. by apply getitem_without_keys_absent. }
  unfold late_fields. rewrite !elem_of_cons, elem_of_nil.
  intros [-> | [-> | [-> | [-> | [-> | [-> | []]]]]]] Hread;
    apply getpath_two in Hread as (v & Hv & Hx); revert Hx;
    first [ apply (Hsuite _ _ Hv) | apply (Hrepo _ _ Hv) ];
    rewrite !elem_of_cons; tauto.
Qed.

(** *** The claims *)

(** With no entry under any casing of the name there is none under the
    name itself. *)
Lemma missing_under_any_casing (cfg : Config) (event : LambdaHTTPEvent)
    (context : Any) :
  (∀ k, lower k = lower "X-GitHub-Event" → headers event !! k = None) →
  outcome (handler json_loads cfg event context)
  = Ret {| statusCode := 400; body := "Missing X-GitHub-Event header" |}.
Proof.
  intros Hnone. unfold handler. rewrite bind_debug.
  by rewrite (Hnone "X-GitHub-Event" eq_refl).
Qed.

(** C2 (amended): the event type is looked up under the exact key
    [X-GitHub-Event]. The reply is the 400 "Missing X-GitHub-Event header"
    exactly when the header map has no entry under that very key, whatever
    it holds under keys of another letter case; in particular an event with
    no such header under any casing gets that reply. *)
Theorem C2_header_lookup_is_exact (cfg : Config) (event : LambdaHTTPEvent)
    (context : Any) :
  outcome (handler json_loads cfg event context)
  = Ret {| statusCode := 400; body := "Missing X-GitHub-Event header" |}
  ↔ headers event !! "X-GitHub-Event" = None.
Proof.
  unfold handler. rewrite bind_debug. unfold outcome. cbn [snd].
  destruct (headers event !! "X-GitHub-Event") as [event_type|]; [| done].
  split; [| discriminate]. intros Hrun. exfalso.
  destruct (negb (String.eqb event_type "check_suite")); [discriminate |].
  destruct (json_loads (event_body event)) as [e | payload]; [discriminate |].
  by apply screen_status in Hrun.
Qed.

(** C8: an event of type [check_suite] whose body [json.loads] rejects
    with the error text [e] is answered with status 400 and the body
    "Couldn't parse body (e)"; nothing but the greeting and the reply is
    printed, so no step of the pipeline is run. *)
Theorem C8_unparsable_body_rejected (cfg : Config) (event : LambdaHTTPEvent)
    (context : Any) (e : string) :
  headers event !! "X-GitHub-Event" = Some "check_suite" →
  json_loads (event_body event) = inl e →
  handler json_loads cfg event context
  = (["DEBUG: Hello. Event: " +:+ repr event;
      "DEBUG: Sending reply: "
        +:+ repr {| statusCode := 400; body := "Couldn't parse body (" +:+ e +:+ ")" |}],
     Ret {| statusCode := 400; body := "Couldn't parse body (" +:+ e +:+ ")" |}).
Proof.
  intros Hheader Hloads. unfold handler.
  rewrite bind_debug, Hheader, Hloads. reflexivity.
Qed.

(** C5: the steps are tried in the order action, status, conclusion,
    repository id, pull request or branch, and the first one that fails
    decides the reply: status 200 with the reason of that step. For a
    failure at one of the first four steps, and so for an action other than
    "completed", nothing is printed between the greeting and the reply and
    the rest of the payload is not looked at. *)
Theorem C5_first_failing_step_decides (cfg : Config) (event : LambdaHTTPEvent)
    (context : Any) (payload : json) (reason : string) :
  delivers json_loads event payload →
  first_failure cfg payload reason →
  outcome (handler json_loads cfg event context)
  = Ret {| statusCode := 200; body := reason |}
  ∧ (early_failure cfg payload reason →
     printed (handler json_loads cfg event context)
     = ["DEBUG: Hello. Event: " +:+ repr event;
        "DEBUG: Sending reply: " +:+ repr {| statusCode := 200; body := reason |}]).
Proof.
  intros Hdelivers Hfails. rewrite (handler_screen _ _ _ _ Hdelivers).
  unfold outcome, printed. cbn [fst snd]. split.
  - destruct Hfails as [reason Hearly | cs conclusion branch Hscreened Hnone Hbranch Hout].
    + by rewrite (screen_early _ _ _ Hearly).
    + rewrite (screen_pass _ _ _ _ Hscreened).
      by rewrite (select_ignored_run _ _ _ _ _ Hnone Hbranch Hout).
  - intros Hearly. by rewrite (screen_early _ _ _ Hearly).
Qed.

(** C10: a payload ignored at one of the first four steps gets its 200
    reply whether or not it has [check_suite.pull_requests], [head_branch],
    [head_sha], [head_commit], [repository.name] and [repository.owner]:
    the payload stripped of these six fields, from which none of them can
    be read, gets the same reply, and nothing is raised. *)
Theorem C10_early_reply_needs_no_late_field (cfg : Config)
    (event stripped : LambdaHTTPEvent) (context : Any) (payload : json)
    (reason : string) :
  delivers json_loads event payload →
  delivers json_loads stripped (without_late_fields payload) →
  early_failure cfg payload reason →
  outcome (handler json_loads cfg event context)
  = Ret {| statusCode := 200; body := reason |}
  ∧ outcome (handler json_loads cfg stripped context)
    = Ret {| statusCode := 200; body := reason |}
  ∧ ∀ ks x, ks ∈ late_fields → getpath (without_late_fields payload) ks ≠ Ret x.
Proof.
  intros Hevent Hstripped Hearly.
  rewrite (handler_screen _ _ _ _ Hevent), (handler_screen _ _ _ _ Hstripped).
  unfold outcome. cbn [snd].
  rewrite (screen_early _ _ _ Hearly).
  rewrite (screen_early _ _ _ (early_failure_without_late _ _ _ Hearly)).
  repeat split. intros ks x. apply late_fields_absent.
Qed.

(** C3: when pull requests are watched and a pull request against a
    watched repository is found, the variables are those of the pull
    request, [commit_desc = "PR #<number>"] and the [/pull/] URL, whatever
    [head_branch] is, a watched branch included; the run prints no line of
    the branch path. *)
Theorem C3_pull_request_wins_over_branch (cfg : Config) (event : LambdaHTTPEvent)
    (context : Any) (payload cs : json) (conclusion : string)
    (pre post : list json)
    (pr branch owner_base_url repo_name committer pr_num : json)
    (message : string) :
  delivers json_loads event payload →
  screened cfg payload cs conclusion →
  watch_prs cfg = true →
  getitem cs "pull_requests" = Ret (JArr (pre ++ pr :: post)) →
  Forall (base_watched cfg false) pre →
  base_watched cfg true pr →
  getitem pr "number" = Ret pr_num →
  getitem cs "head_branch" = Ret branch →
  described payload cs owner_base_url repo_name committer →
  alert_message cfg (JStr conclusion) committer
    ("PR #" +:+ py_str pr_num,
     py_str owner_base_url +:+ "/" +:+ py_str repo_name +:+ "/pull/"
       +:+ py_str pr_num +:+ "#partial-pull-merging") = Ret message →
  commit_vars cfg cs (Some pr) branch owner_base_url repo_name
  = Ret ("PR #" +:+ py_str pr_num,
         py_str owner_base_url +:+ "/" +:+ py_str repo_name +:+ "/pull/"
           +:+ py_str pr_num +:+ "#partial-pull-merging")
  ∧ handler json_loads cfg event context
    = (("DEBUG: Hello. Event: " +:+ repr event)
         :: looking cfg
         ++ ["DEBUG: PR " +:+ py_str pr +:+ " is a match";
             "DEBUG: Message is: " +:+ message;
             "DEBUG: Sending reply: " +:+ repr acknowledgement],
       Ret acknowledgement).
Proof.
  intros Hdelivers Hscreened Hwatch Hpulls Hpre Hpr Hnum Hbranch Hdescribed
    Hmessage.
  pose proof (commit_vars_pr cfg cs pr branch owner_base_url repo_name _ _
                Hpr Hnum) as Hvars.
  split; [exact Hvars |].
  by eapply handler_pr_run.
Qed.

(** C4: a payload that passes every step is answered with status 200 and
    the fixed body [{"message": "We cared about this message!"}]; the
    message made from the template is printed, in the line before the
    reply is, and the reply is the same whatever the message is. *)
Theorem C4_alert_is_acknowledged_only (cfg : Config) (event : LambdaHTTPEvent)
    (context : Any) (payload cs : json) (conclusion : string)
    (matching_pr : option json)
    (branch owner_base_url repo_name committer : json)
    (vars : string * string) (message : string) :
  delivers json_loads event payload →
  screened cfg payload cs conclusion →
  selected cfg cs matching_pr branch →
  described payload cs owner_base_url repo_name committer →
  commit_vars cfg cs matching_pr branch owner_base_url repo_name = Ret vars →
  alert_message cfg (JStr conclusion) committer vars = Ret message →
  outcome (handler json_loads cfg event context)
  = Ret {| statusCode := 200;
           body := "{" +:+ dquote +:+ "message" +:+ dquote +:+ ": " +:+ dquote
                   +:+ "We cared about this message!" +:+ dquote +:+ "}" |}
  ∧ ∃ before,
      printed (handler json_loads cfg event context)
      = before ++ ["DEBUG: Message is: " +:+ message;
                   "DEBUG: Sending reply: " +:+ repr acknowledgement].
Proof.
  intros Hdelivers Hscreened Hselected Hdescribed Hvars Hmessage.
  destruct Hselected as
    [pulls pre pr post branch Hwatch Hpulls Hiter Hpre Hpr Hbranch
    |branch Hnone Hbranch Hin].
  - rewrite (handler_pr_run _ _ _ _ _ _ _ _ _ _ _ _ _ _ _ _ Hdelivers Hscreened
               Hwatch Hpulls Hiter Hpre Hpr Hbranch Hdescribed Hvars Hmessage).
    split; [reflexivity |].
    exists (("DEBUG: Hello. Event: " +:+ repr event) :: looking cfg
            ++ ["DEBUG: PR " +:+ py_str pr +:+ " is a match"]).
    unfold printed. cbn [fst]. by rewrite <- app_comm_cons, <- app_assoc.
  - rewrite (handler_branch_run _ _ _ _ _ _ _ _ _ _ _ _ Hdelivers Hscreened
               Hnone Hbranch Hin Hdescribed Hvars Hmessage).
    split; [reflexivity |].
    exists (("DEBUG: Hello. Event: " +:+ repr event) :: looking cfg
            ++ ["DEBUG: Alerting on branch " +:+ py_str branch]).
    unfold printed. cbn [fst]. by rewrite <- app_comm_cons, <- app_assoc.
Qed.

(** C6: when pull requests are watched, the pull request selected is the
    first one in the sequence that is against a watched repository: the
    loop ends there with that pull request, whatever follows it in the
    sequence (other matching pull requests included), and the message is
    made from its number. *)
Theorem C6_first_matching_pull_request (cfg : Config) (event : LambdaHTTPEvent)
    (context : Any) (payload cs : json) (conclusion : string)
    (pre post : list json)
    (pr branch owner_base_url repo_name committer pr_num : json)
    (message : string) :
  delivers json_loads event payload →
  screened cfg payload cs conclusion →
  watch_prs cfg = true →
  getitem cs "pull_requests" = Ret (JArr (pre ++ pr :: post)) →
  Forall (base_watched cfg false) pre →
  base_watched cfg true pr →
  getitem pr "number" = Ret pr_num →
  getitem cs "head_branch" = Ret branch →
  described payload cs owner_base_url repo_name committer →
  alert_message cfg (JStr conclusion) committer
    ("PR #" +:+ py_str pr_num,
     py_str owner_base_url +:+ "/" +:+ py_str repo_name +:+ "/pull/"
       +:+ py_str pr_num +:+ "#partial-pull-merging") = Ret message →
  find_matching_pr cfg (pre ++ pr :: post)
  = (["DEBUG: PR " +:+ py_str pr +:+ " is a match"], Ret (Some pr))
  ∧ printed (handler json_loads cfg event context)
    = ("DEBUG: Hello. Event: " +:+ repr event)
        :: looking cfg
        ++ ["DEBUG: PR " +:+ py_str pr +:+ " is a match";
            "DEBUG: Message is: " +:+ message;
            "DEBUG: Sending reply: " +:+ repr acknowledgement].
Proof.
  intros Hdelivers Hscreened Hwatch Hpulls Hpre Hpr Hnum Hbranch Hdescribed
    Hmessage.
  split; [by apply find_matching_pr_first |].
  erewrite handler_pr_run; [reflexivity | try eassumption ..].
  - reflexivity.
  - by eapply commit_vars_pr.
Qed.

(** C7: on the branch path (no matching pull request, [head_branch] a
    watched branch), with a sha length that is not negative, [commit_desc]
    is the first [sha_length] characters of [head_sha] followed by
    " (branch <head_branch>)" and [commit_html_url] is
    "<owner_html_url>/<repo_name>/commit/<truncated sha>". *)
Theorem C7_branch_variables (cfg : Config) (event : LambdaHTTPEvent)
    (context : Any) (payload cs : json) (conclusion : string)
    (owner_base_url repo_name committer : json) (b sha message : string) :
  delivers json_loads event payload →
  screened cfg payload cs conclusion →
  no_matching_pr cfg cs →
  getitem cs "head_branch" = Ret (JStr b) →
  b ∈ branches cfg →
  described payload cs owner_base_url repo_name committer →
  getitem cs "head_sha" = Ret (JStr sha) →
  0 ≤ sha_length cfg →
  alert_message cfg (JStr conclusion) committer
    (String.substring 0 (Z.to_nat (sha_length cfg)) sha
       +:+ " (branch " +:+ b +:+ ")",
     py_str owner_base_url +:+ "/" +:+ py_str repo_name +:+ "/commit/"
       +:+ String.substring 0 (Z.to_nat (sha_length cfg)) sha) = Ret message →
  commit_vars cfg cs None (JStr b) owner_base_url repo_name
  = Ret (String.substring 0 (Z.to_nat (sha_length cfg)) sha
           +:+ " (branch " +:+ b +:+ ")",
         py_str owner_base_url +:+ "/" +:+ py_str repo_name +:+ "/commit/"
           +:+ String.substring 0 (Z.to_nat (sha_length cfg)) sha)
  ∧ handler json_loads cfg event context
    = (("DEBUG: Hello. Event: " +:+ repr event)
         :: looking cfg
         ++ ["DEBUG: Alerting on branch " +:+ b;
             "DEBUG: Message is: " +:+ message;
             "DEBUG: Sending reply: " +:+ repr acknowledgement],
       Ret acknowledgement).
Proof.
  intros Hdelivers Hscreened Hnone Hbranch Hin Hdescribed Hsha Hlen Hmessage.
  pose proof (commit_vars_branch cfg cs owner_base_url repo_name b sha
                Hsha Hlen) as Hvars.
  split; [exact Hvars |].
  apply in_strs_JStr in Hin.
  by rewrite (handler_branch_run _ _ _ _ _ _ _ _ _ _ _ _ Hdelivers Hscreened
                Hnone Hbranch Hin Hdescribed Hvars Hmessage).
Qed.

(** C9: on the branch path, a sha length that is at least the length of
    [head_sha] keeps the whole of [head_sha]: nothing is raised, nothing is
    added, and [commit_desc] and [commit_html_url] hold the full string. *)
Theorem C9_long_sha_length_keeps_sha (cfg : Config) (event : LambdaHTTPEvent)
    (context : Any) (payload cs : json) (conclusion : string)
    (owner_base_url repo_name committer : json) (b sha message : string) :
  delivers json_loads event payload →
  screened cfg payload cs conclusion →
  no_matching_pr cfg cs →
  getitem cs "head_branch" = Ret (JStr b) →
  b ∈ branches cfg →
  described payload cs owner_base_url repo_name committer →
  getitem cs "head_sha" = Ret (JStr sha) →
  Z.of_nat (String.length sha) ≤ sha_length cfg →
  alert_message cfg (JStr conclusion) committer
    (sha +:+ " (branch " +:+ b +:+ ")",
     py_str owner_base_url +:+ "/" +:+ py_str repo_name +:+ "/commit/" +:+ sha)
  = Ret message →
  py_slice_to (JStr sha) (sha_length cfg) = Ret (JStr sha)
  ∧ commit_vars cfg cs None (JStr b) owner_base_url repo_name
    = Ret (sha +:+ " (branch " +:+ b +:+ ")",
           py_str owner_base_url +:+ "/" +:+ py_str repo_name +:+ "/commit/" +:+ sha)
  ∧ outcome (handler json_loads cfg event context) = Ret acknowledgement
  ∧ "DEBUG: Message is: " +:+ message
    ∈ printed (handler json_loads cfg event context).
Proof.
  intros Hdelivers Hscreened Hnone Hbranch Hin Hdescribed Hsha Hlen Hmessage.
  assert (Hvars : commit_vars cfg cs None (JStr b) owner_base_url repo_name
    = Ret (sha +:+ " (branch " +:+ b +:+ ")",
           py_str owner_base_url +:+ "/" +:+ py_str repo_name +:+ "/commit/" +:+ sha)).
  { unfold commit_vars. rewrite Hsha. cbn [mbind result_mbind result_bind].
    by rewrite py_slice_to_all. }
  apply in_strs_JStr in Hin.
  rewrite (handler_branch_run _ _ _ _ _ _ _ _ _ _ _ _ Hdelivers Hscreened
             Hnone Hbranch Hin Hdescribed Hvars Hmessage).
  split; [by apply py_slice_to_all |]. split; [exact Hvars |].
  split; [reflexivity |].
  unfold printed. cbn [fst]. rewrite elem_of_cons, elem_of_app, !elem_of_cons.
  tauto.
Qed.

(** *** The configured conclusions *)

(** No run of the handler depends on [config["conclusions"]]. *)
Lemma find_matching_pr_with_conclusions (l : list string) (cfg : Config)
    (prs : list json) :
  find_matching_pr (with_conclusions l cfg) prs = find_matching_pr cfg prs.
Proof.
  induction prs as [|pr prs IH]; [reflexivity |]. cbn [find_matching_pr].
  destruct (getpath pr ["base"; "repo"; "id"]) as [id|e]; [| reflexivity].
  rewrite !bind_ret. cbn [repos with_conclusions].
  destruct (in_ints id (repos cfg)); [reflexivity | exact IH].
Qed.

Lemma select_with_conclusions (l : list string) (cfg : Config)
    (body cs conclusion : json) :
  select (with_conclusions l cfg) body cs conclusion = select cfg body cs conclusion.
Proof.
  unfold select. cbn [watch_prs repos branches with_conclusions].
  destruct (watch_prs cfg); [| reflexivity].
  rewrite !bind_debug.
  destruct (getitem cs "pull_requests") as [pulls|e]; [| reflexivity].
  rewrite !bind_ret.
  destruct (py_iter pulls) as [prs|e]; [| reflexivity].
  rewrite !bind_ret. by rewrite find_matching_pr_with_conclusions.
Qed.

Lemma screen_with_conclusions (l : list string) (cfg : Config) (body : json) :
  screen (with_conclusions l cfg) body = screen cfg body.
Proof.
  unfold screen.
  destruct (getitem body "action") as [action|e]; [| reflexivity].
  rewrite !bind_ret.
  destruct (negb (eq_str action "completed")); [reflexivity |].
  destruct (getitem body "check_suite") as [cs|e]; [| reflexivity].
  rewrite !bind_ret.
  destruct (getitem cs "status") as [status|e]; [| reflexivity].
  rewrite !bind_ret.
  destruct (negb (eq_str status "completed")); [reflexivity |].
  destruct (getitem cs "conclusion") as [conclusion|e]; [| reflexivity].
  rewrite !bind_ret.
  destruct (negb (in_strs conclusion alertable)); [reflexivity |].
  destruct (getpath body ["repository"; "id"]) as [id|e]; [| reflexivity].
  rewrite !bind_ret. cbn [repos with_conclusions].
  destruct (negb (in_ints id (repos cfg))); [reflexivity |].
  apply select_with_conclusions.
Qed.

(** X9: the run of the handler is the same whatever list [config] holds
    under [conclusions]. *)
Lemma handler_with_conclusions (l : list string) (cfg : Config)
    (event : LambdaHTTPEvent) (context : Any) :
  handler json_loads (with_conclusions l cfg) event context
  = handler json_loads cfg event context.
Proof.
  unfold handler. rewrite !bind_debug.
  destruct (headers event !! "X-GitHub-Event") as [event_type|]; [| reflexivity].
  destruct (negb (String.eqb event_type "check_suite")); [reflexivity |].
  destruct (json_loads (event_body event)) as [e | payload]; [reflexivity |].
  by rewrite screen_with_conclusions.
Qed.

End Properties.

(** ** Further properties of the handler *)

Section Further.

Context (json_loads : string → string + json).
Context `{!Repr string, !Repr json, !Repr LambdaHTTPEvent}.
Context {Any : Type}.

(** *** Taking a run apart *)

Lemma run_bind {A B} (m : M A) (k : A → M B) (out : list string) (r : B) :
  (m ≫= k) = (out, Ret r) →
  ∃ out1 a out2, m = (out1, Ret a) ∧ k a = (out2, Ret r) ∧ out = out1 ++ out2.
Proof.
  destruct m as [out1 [a|e]]; unfold mbind, M_mbind, M_bind; [| discriminate].
  destruct (k a) as [out2 r2] eqn:Hk. intros [= <- ->]. by exists out1, a, out2.
Qed.

Lemma outcome_ok_inv (msg : string) (r : LambdaResponse) :
  outcome (ok msg) = Ret r → r = {| statusCode := 200; body := msg |}.
Proof. unfold outcome. cbn. by intros [= <-]. Qed.

Ltac take_apart H :=
  repeat match type of H with
    | outcome (_ ≫= _) = Ret _ => apply outcome_bind in H as [? H]
    | outcome (if ?b then _ else _) = Ret _ => destruct b
    end.

(** *** The replies *)

Lemma respond_reply (cfg : Config) (body cs conclusion : json)
    (matching_pr : option json) (branch : json) (r : LambdaResponse) :
  outcome (respond cfg body cs conclusion matching_pr branch) = Ret r →
  r = acknowledgement.
Proof.
  unfold respond. intros Hrun. take_apart Hrun. by apply outcome_ok_inv in Hrun.
Qed.

Lemma select_reply (cfg : Config) (body cs conclusion : json) (r : LambdaResponse) :
  outcome (select cfg body cs conclusion) = Ret r → reply r.
Proof.
  unfold select. intros Hrun. take_apart Hrun.
  - apply outcome_ok_inv in Hrun as ->. constructor.
  - apply respond_reply in Hrun as ->. constructor.
  - apply respond_reply in Hrun as ->. constructor.
Qed.

Lemma screen_reply (cfg : Config) (body : json) (r : LambdaResponse) :
  outcome (screen cfg body) = Ret r → reply r.
Proof.
  unfold screen. intros Hrun. take_apart Hrun;
    try (apply outcome_ok_inv in Hrun as ->; constructor).
  by apply select_reply in Hrun.
Qed.

(** X1: whatever the event, a reply of the handler is one of the nine of
    [reply]: one of the two errors with status 400, one of the six reasons
    to ignore the event with status 200, or the acknowledgement. *)
Theorem handler_replies (cfg : Config) (event : LambdaHTTPEvent) (context : Any)
    (r : LambdaResponse) :
  outcome (handler json_loads cfg event context) = Ret r → reply r.
Proof.
  unfold handler. rewrite bind_debug. unfold outcome. cbn [snd].
  destruct (headers event !! "X-GitHub-Event") as [event_type|].
  - destruct (negb (String.eqb event_type "check_suite")).
    + intros [= <-]. constructor.
    + destruct (json_loads (event_body event)) as [e | payload].
      * intros [= <-]. constructor.
      * apply screen_reply.
  - intros [= <-]. constructor.
Qed.

(** X2: an event of another type than [check_suite] is ignored with status
    200 whatever its body is: the body is not parsed. *)
Theorem other_event_type_ignored (cfg : Config) (event : LambdaHTTPEvent)
    (context : Any) (event_type : string) :
  headers event !! "X-GitHub-Event" = Some event_type →
  event_type ≠ "check_suite" →
  handler json_loads cfg event context
  = (["DEBUG: Hello. Event: " +:+ repr event;
      "DEBUG: Sending reply: "
        +:+ repr {| statusCode := 200;
                    body := "Ignored based on X-GitHub-Event value" |}],
     Ret {| statusCode := 200; body := "Ignored based on X-GitHub-Event value" |}).
Proof.
  intros Hheader Hother. unfold handler. rewrite bind_debug, Hheader.
  apply String.eqb_neq in Hother. by rewrite Hother.
Qed.

(** *** What is printed *)

Lemma logged_app (out1 out2 : list string) (line : string) :
  (∃ before, out2 = before ++ [line]) → ∃ before, out1 ++ out2 = before ++ [line].
Proof. intros [before ->]. exists (out1 ++ before). by rewrite app_assoc. Qed.

Ltac follow H :=
  repeat match type of H with
    | (_ ≫= _) = _ =>
        apply run_bind in H as (? & ? & ? & _ & H & ->); apply logged_app
    | (if ?b then _ else _) = _ => destruct b
    end.

Lemma ok_logged (msg : string) (out : list string) (r : LambdaResponse) :
  ok msg = (out, Ret r) → ∃ before, out = before ++ ["DEBUG: Sending reply: " +:+ repr r].
Proof. rewrite ok_run. intros [= <- <-]. by exists []. Qed.

Lemma respond_logged (cfg : Config) (body cs conclusion : json)
    (matching_pr : option json) (branch : json) (out : list string)
    (r : LambdaResponse) :
  respond cfg body cs conclusion matching_pr branch = (out, Ret r) →
  ∃ before, out = before ++ ["DEBUG: Sending reply: " +:+ repr r].
Proof. unfold respond. intros Hrun. follow Hrun. by apply ok_logged in Hrun. Qed.

Lemma select_logged (cfg : Config) (body cs conclusion : json)
    (out : list string) (r : LambdaResponse) :
  select cfg body cs conclusion = (out, Ret r) →
  ∃ before, out = before ++ ["DEBUG: Sending reply: " +:+ repr r].
Proof.
  unfold select. intros Hrun. follow Hrun;
    eauto using ok_logged, respond_logged.
Qed.

Lemma screen_logged (cfg : Config) (body : json) (out : list string)
    (r : LambdaResponse) :
  screen cfg body = (out, Ret r) →
  ∃ before, out = before ++ ["DEBUG: Sending reply: " +:+ repr r].
Proof.
  unfold screen. intros Hrun. follow Hrun;
    eauto using ok_logged, select_logged.
Qed.

(** X3: a run that ends with a reply printed the greeting first and the reply
    last: no reply leaves the handler without its "Sending reply" line. *)
Theorem reply_is_printed_last (cfg : Config) (event : LambdaHTTPEvent)
    (context : Any) (out : list string) (r : LambdaResponse) :
  handler json_loads cfg event context = (out, Ret r) →
  ∃ between,
    out = ("DEBUG: Hello. Event: " +:+ repr event)
            :: between ++ ["DEBUG: Sending reply: " +:+ repr r].
Proof.
  unfold handler. rewrite bind_debug. intros [= <- Hrun]. revert Hrun.
  assert (Hend : ∀ m : M LambdaResponse,
    (∀ out, m = (out, Ret r) →
       ∃ before, out = before ++ ["DEBUG: Sending reply: " +:+ repr r]) →
    m.2 = Ret r →
    ∃ between, m.1 = between ++ ["DEBUG: Sending reply: " +:+ repr r]).
  { intros [out' r'] Hm. cbn. intros ->. by apply Hm. }
  intros Hrun.
  destruct (headers event !! "X-GitHub-Event") as [event_type|].
  - destruct (negb (String.eqb event_type "check_suite")).
    + destruct (Hend _ (λ out, ok_logged _ out r) Hrun) as [between ->].
      by exists between.
    + destruct (json_loads (event_body event)) as [e | payload].
      * injection Hrun as <-. by exists [].
      * destruct (Hend _ (λ out, screen_logged cfg payload out r) Hrun)
          as [between ->].
        by exists between.
  - injection Hrun as <-. by exists [].
Qed.










(** *** Payloads that make the handler raise *)

(** X5: a body that is JSON but not an object, or an object without [action],
    makes the handler raise after the greeting ([TypeError], or [KeyError]
    for [action]): no reply is made, not even a 400. *)
Theorem payload_without_action_raises (cfg : Config) (event : LambdaHTTPEvent)
    (context : Any) (payload : json) :
  delivers json_loads event payload →
  ((∀ o, payload ≠ JObj o) →
   handler json_loads cfg event context
   = (["DEBUG: Hello. Event: " +:+ repr event], Raise TypeError))
  ∧ (∀ o, payload = JObj o → o !! "action" = None →
     handler json_loads cfg event context
     = (["DEBUG: Hello. Event: " +:+ repr event], Raise (KeyError "action"))).
Proof.
  intros Hdelivers. rewrite (handler_screen _ _ _ _ _ Hdelivers). unfold screen.
  split.
  - intros Hshape. destruct payload; try reflexivity. by destruct (Hshape o).
  - intros o -> Hnone. cbn [getitem]. by rewrite Hnone.
Qed.

Lemma find_matching_pr_raises (cfg : Config) (pre post : list json) (pr : json)
    (e : exn) :
  Forall (base_watched cfg false) pre →
  getpath pr ["base"; "repo"; "id"] = Raise e →
  find_matching_pr cfg (pre ++ pr :: post) = ([], Raise e).
Proof.
  intros Hpre Hraise. induction Hpre as [|p pre (i & Hi & Hout) _ IH].
  - cbn [app find_matching_pr]. by rewrite Hraise.
  - cbn [app find_matching_pr]. rewrite Hi, bind_ret, Hout. exact IH.
Qed.

(** X6: a pull request whose [base.repo.id] cannot be read, met before any
    pull request against a watched repository, makes the handler raise:
    neither a later pull request nor a watched branch is looked at. *)
Theorem unreadable_pull_request_raises (cfg : Config) (event : LambdaHTTPEvent)
    (context : Any) (payload cs : json) (conclusion : string)
    (pre post : list json) (pr : json) (e : exn) :
  delivers json_loads event payload →
  screened cfg payload cs conclusion →
  watch_prs cfg = true →
  getitem cs "pull_requests" = Ret (JArr (pre ++ pr :: post)) →
  Forall (base_watched cfg false) pre →
  getpath pr ["base"; "repo"; "id"] = Raise e →
  handler json_loads cfg event context
  = (("DEBUG: Hello. Event: " +:+ repr event) :: looking cfg, Raise e).
Proof.
  intros Hdelivers Hscreened Hwatch Hpulls Hpre Hraise.
  rewrite (handler_screen _ _ _ _ _ Hdelivers), (screen_pass _ _ _ _ Hscreened).
  unfold select, looking. rewrite Hwatch, bind_debug, Hpulls, bind_ret.
  cbn [py_iter]. rewrite bind_ret.
  by rewrite (find_matching_pr_raises _ _ _ _ _ Hpre Hraise).
Qed.

(** X7: [head_branch] is read on the pull request path too: with a pull
    request against a watched repository found, a check suite without
    [head_branch] makes the handler raise instead of alerting. *)
Theorem pull_request_path_reads_head_branch (cfg : Config)
    (event : LambdaHTTPEvent) (context : Any) (payload cs : json)
    (conclusion : string) (pre post : list json) (pr : json) (e : exn) :
  delivers json_loads event payload →
  screened cfg payload cs conclusion →
  watch_prs cfg = true →
  getitem cs "pull_requests" = Ret (JArr (pre ++ pr :: post)) →
  Forall (base_watched cfg false) pre →
  base_watched cfg true pr →
  getitem cs "head_branch" = Raise e →
  handler json_loads cfg event context
  = (("DEBUG: Hello. Event: " +:+ repr event)
       :: looking cfg ++ ["DEBUG: PR " +:+ py_str pr +:+ " is a match"],
     Raise e).
Proof.
  intros Hdelivers Hscreened Hwatch Hpulls Hpre Hpr Hraise.
  rewrite (handler_screen _ _ _ _ _ Hdelivers), (screen_pass _ _ _ _ Hscreened).
  unfold select, looking. rewrite Hwatch.
  rewrite (bind_run ["DEBUG: Looking for PRs in " +:+ repr (repos cfg);
                     "DEBUG: PR " +:+ py_str pr +:+ " is a match"] (Some pr)).
  - by rewrite Hraise.
  - rewrite bind_debug, Hpulls, bind_ret. cbn [py_iter]. rewrite bind_ret.
    by rewrite (find_matching_pr_first _ _ _ _ Hpre Hpr).
Qed.

(** X8: what the loop returns is what the list holds: a pull request it
    returns is in the list, is against a watched repository and has only
    pull requests against other repositories before it; when it returns
    [None] no pull request of the list is against a watched repository. *)
Theorem find_matching_pr_sound (cfg : Config) (prs : list json)
    (out : list string) (found : option json) :
  find_matching_pr cfg prs = (out, Ret found) →
  match found with
  | Some pr =>
      ∃ pre post, prs = pre ++ pr :: post
                  ∧ Forall (base_watched cfg false) pre
                  ∧ base_watched cfg true pr
  | None => Forall (base_watched cfg false) prs
  end.
Proof.
  revert out. induction prs as [|p prs IH]; intros out; cbn [find_matching_pr].
  - intros [= <- <-]. constructor.
  - destruct (getpath p ["base"; "repo"; "id"]) as [id|e] eqn:Hid;
      [| discriminate].
    rewrite bind_ret. destruct (in_ints id (repos cfg)) eqn:Hin.
    + intros [= <- <-]. exists [], prs. repeat split; [constructor |].
      by exists id.
    + intros Hrest. specialize (IH _ Hrest). destruct found as [pr|].
      * destruct IH as (pre & post & -> & Hpre & Hpr).
        exists (p :: pre), post. repeat split; [| done].
        constructor; [by exists id | done].
      * constructor; [by exists id | done].
Qed.

(** *** The message template *)

Lemma append_cons (c : Ascii.ascii) (s t : string) :
  String c s +:+ t = String c (s +:+ t).
Proof. reflexivity. Qed.

Lemma append_empty_r (s : string) : s +:+ EmptyString = s.
Proof. induction s as [|c s IH]; [done |]. by rewrite append_cons, IH. Qed.

Lemma append_append (s t u : string) : (s +:+ t) +:+ u = s +:+ (t +:+ u).
Proof. induction s as [|c s IH]; [done |]. by rewrite !append_cons, IH. Qed.

Lemma format_go_literal (kw : list (string * string)) (p rest : string) :
  brace_free p = true →
  format_go kw None (p +:+ rest) = (String.append p) <$> format_go kw None rest.
Proof.
  induction p as [|c p IH].
  - intros _. change (EmptyString +:+ rest) with rest.
    by destruct (format_go kw None rest).
  - cbn [brace_free]. intros Hfree. apply andb_prop in Hfree as [Hc Hfree].
    apply andb_prop in Hc as [Hopen Hclose].
    apply negb_true_iff in Hopen, Hclose.
    rewrite append_cons. cbn [format_go]. rewrite Hopen, Hclose, (IH Hfree).
    by destruct (format_go kw None rest).
Qed.

Lemma format_go_name (kw : list (string * string)) (acc n rest : string) :
  plain_name n = true →
  format_go kw (Some acc) (n +:+ String "}" rest)
  = (v ← get_field kw (acc +:+ n);
     r ← format_go kw None rest;
     mret (v +:+ r)).
Proof.
  revert acc. induction n as [|c n IH]; intros acc.
  - intros _. change (EmptyString +:+ String "}" rest) with (String "}" rest).
    cbn [format_go]. change (Ascii.eqb "}" "}") with true. cbv iota.
    by rewrite append_empty_r.
  - cbn [plain_name]. intros Hplain. apply andb_prop in Hplain as [Hc Hplain].
    apply andb_prop in Hc as [Hclose Hsyntax].
    apply negb_true_iff in Hclose, Hsyntax.
    rewrite append_cons. cbn [format_go]. rewrite Hclose, Hsyntax.
    rewrite (IH _ Hplain), append_append. reflexivity.
Qed.

Lemma format_go_open (kw : list (string * string)) (n rest : string) :
  plain_name n = true →
  format_go kw None (String "{" (n +:+ String "}" rest))
  = format_go kw (Some EmptyString) (n +:+ String "}" rest).
Proof.
  destruct n as [|c n]; [reflexivity |]. cbn [plain_name]. intros Hplain.
  apply andb_prop in Hplain as [Hc _]. apply andb_prop in Hc as [_ Hsyntax].
  apply negb_true_iff in Hsyntax. unfold field_syntax in Hsyntax.
  cbn [existsb] in Hsyntax. apply orb_false_elim in Hsyntax as [Hopen _].
  rewrite append_cons. cbn [format_go].
  change (Ascii.eqb "{" "{") with true. cbv iota. by rewrite Hopen.
Qed.

(** X10: text without braces, then a field with a plain name, then the rest:
    the text is copied, the field is replaced by the value passed under
    its name and the rest is formatted in turn; a name that was not passed
    is a [KeyError]. *)
Theorem format_field (kw : list (string * string)) (p n rest : string) :
  brace_free p = true →
  plain_name n = true →
  format (p +:+ "{" +:+ n +:+ "}" +:+ rest) kw
  = (v ← get_field kw n;
     r ← format rest kw;
     mret (p +:+ v +:+ r)).
Proof.
  intros Hfree Hplain. unfold format. rewrite (format_go_literal _ _ _ Hfree).
  change ("{" +:+ n +:+ "}" +:+ rest) with (String "{" (n +:+ String "}" rest)).
  rewrite (format_go_open _ _ _ Hplain), (format_go_name _ _ _ _ Hplain).
  change (EmptyString +:+ n) with n.
  destruct (get_field kw n) as [v|e]; [| reflexivity].
  destruct (format_go kw None rest) as [r|e]; reflexivity.
Qed.

(** X11: a template without braces is the message, whatever is passed. *)
Theorem format_without_fields (kw : list (string * string)) (t : string) :
  brace_free t = true → format t kw = Ret t.
Proof.
  intros Hfree. unfold format.
  rewrite <- (append_empty_r t) at 1.
  rewrite (format_go_literal _ _ _ Hfree).
  change (format_go kw None EmptyString) with (Ret EmptyString : result string).
  change (String.append t <$> Ret EmptyString) with (Ret (t +:+ EmptyString)).
  by rewrite append_empty_r.
Qed.

(** X12: with the template of [config] formatting cannot fail, and the message
    is "Build <conclusion> at <commit_desc> (by <committer>). Details:
    <commit_html_url>". *)
Theorem shipped_message (conclusion committer : json) (vars : string * string) :
  alert_message config conclusion committer vars
  = Ret ("Build " +:+ py_str conclusion +:+ " at " +:+ vars.1 +:+ " (by "
         +:+ py_str committer +:+ "). Details: " +:+ vars.2).
Proof.
  unfold alert_message.
  change (message_template config)
    with ("Build " +:+ "{" +:+ "conclusion" +:+ "}"
          +:+ " at " +:+ "{" +:+ "commit_desc" +:+ "}"
          +:+ " (by " +:+ "{" +:+ "committer" +:+ "}"
          +:+ "). Details: " +:+ "{" +:+ "commit_html_url" +:+ "}"
          +:+ EmptyString).
  rewrite !format_field by reflexivity.
  cbv -[String.append py_str fst snd]. by rewrite append_empty_r.
Qed.

Lemma respond_raises (cfg : Config) (body cs conclusion : json)
    (matching_pr : option json) (branch owner_base_url repo_name committer : json)
    (vars : string * string) (e : exn) :
  described body cs owner_base_url repo_name committer →
  commit_vars cfg cs matching_pr branch owner_base_url repo_name = Ret vars →
  alert_message cfg conclusion committer vars = Raise e →
  outcome (respond cfg body cs conclusion matching_pr branch) = Raise e.
Proof.
  intros [Howner Hname Hcommitter] Hvars Hmessage. unfold respond.
  rewrite Howner, bind_ret, Hname, bind_ret, Hcommitter, bind_ret.
  rewrite Hvars, bind_ret. unfold alert_message in Hmessage.
  by rewrite Hmessage.
Qed.

(** X13: a template whose first field names a variable the handler does not
    pass makes every alert raise [KeyError] for that name: the payload
    passes every step and no reply is made. *)
Theorem unknown_placeholder_raises (cfg : Config) (event : LambdaHTTPEvent)
    (context : Any) (payload cs : json) (conclusion : string)
    (matching_pr : option json)
    (branch owner_base_url repo_name committer : json)
    (vars : string * string) (p n rest : string) :
  delivers json_loads event payload →
  screened cfg payload cs conclusion →
  selected cfg cs matching_pr branch →
  described payload cs owner_base_url repo_name committer →
  commit_vars cfg cs matching_pr branch owner_base_url repo_name = Ret vars →
  message_template cfg = p +:+ "{" +:+ n +:+ "}" +:+ rest →
  brace_free p = true →
  plain_name n = true →
  all_digits n = false →
  n ∉ ["conclusion"; "commit_desc"; "committer"; "commit_html_url"] →
  outcome (handler json_loads cfg event context) = Raise (KeyError n).
Proof.
  intros Hdelivers Hscreened Hselected Hdescribed Hvars Htemplate Hfree Hplain
    Hdigits Hname.
  assert (Hmessage : alert_message cfg (JStr conclusion) committer vars
                     = Raise (KeyError n)).
  { unfold alert_message. rewrite Htemplate, (format_field _ _ _ _ Hfree Hplain).
    unfold get_field. rewrite Hdigits. cbn [kw_lookup].
    rewrite !not_elem_of_cons in Hname.
    destruct Hname as (H1 & H2 & H3 & H4 & _).
    apply not_eq_sym, String.eqb_neq in H1, H2, H3, H4.
    by rewrite H1, H2, H3, H4. }
  pose proof (respond_raises _ _ _ _ _ _ _ _ _ _ _ Hdescribed Hvars Hmessage)
    as Hrespond.
  rewrite (handler_screen _ _ _ _ _ Hdelivers), (screen_pass _ _ _ _ Hscreened).
  unfold outcome in *. cbn [snd].
  destruct Hselected as
    [pulls pre pr post branch Hwatch Hpulls Hiter Hpre Hpr Hbranch
    |branch Hnone Hbranch Hin].
  - by rewrite (select_pr_run _ _ _ _ _ _ _ _ _ Hwatch Hpulls Hiter Hpre Hpr Hbranch).
  - by rewrite (select_branch_run _ _ _ _ _ Hnone Hbranch Hin).
Qed.

(** *** The sha snippet *)

Lemma substring_prefix (k : nat) (s : string) :
  ∃ rest, s = String.substring 0 k s +:+ rest.
Proof.
  revert k. induction s as [|c s IH]; intros [|k]; cbn.
  - by exists EmptyString.
  - by exists EmptyString.
  - by exists (String c s).
  - destruct (IH k) as [rest Hrest]. exists rest.
    by rewrite append_cons, <- Hrest.
Qed.

Lemma substring_length (k : nat) (s : string) :
  String.length (String.substring 0 k s) = Nat.min k (String.length s).
Proof.
  revert k. induction s as [|c s IH]; intros [|k]; cbn; try reflexivity.
  by rewrite IH.
Qed.

(** X14: slicing a string never raises and gives a prefix of it: of
    [min n (len s)] characters when [n] is not negative, and the string
    without its last [-n] characters (nothing, if it has fewer) when [n] is
    negative. *)
Theorem slice_of_string_is_prefix (s : string) (n : Z) :
  ∃ t rest,
    py_slice_to (JStr s) n = Ret (JStr t)
    ∧ s = t +:+ rest
    ∧ (0 ≤ n → String.length t = Nat.min (Z.to_nat n) (String.length s))
    ∧ (n < 0 → Z.of_nat (String.length t)
               = Z.max 0 (Z.of_nat (String.length s) + n)).
Proof.
  destruct (substring_prefix (slice_stop (String.length s) n) s) as [rest Hrest].
  exists (String.substring 0 (slice_stop (String.length s) n) s), rest.
  split; [reflexivity |]. split; [exact Hrest |].
  rewrite substring_length. unfold slice_stop.
  destruct (Z.leb_spec 0 n); split; lia.
Qed.

End Further.

(** ** The claims on the sample requests *)

#[local] Existing Instance sample_repr_string.
#[local] Existing Instance sample_repr_json.
#[local] Existing Instance sample_repr_event.

Ltac sample_fact :=
  lazymatch goal with
  | |- delivers _ _ _ => split; reflexivity
  | |- screened _ _ _ _ =>
      constructor; try reflexivity; eexists; split; reflexivity
  | |- described _ _ _ _ _ => constructor; reflexivity
  | |- base_watched _ _ _ => eexists; split; reflexivity
  | |- Forall _ _ =>
      repeat (constructor; [eexists; split; reflexivity |]); constructor
  | |- no_matching_pr _ _ =>
      right; eexists _, _; split; [reflexivity |]; split; [reflexivity |];
      repeat (constructor; [eexists; split; reflexivity |]); constructor
  | |- _ ∈ _ => solve [repeat constructor]
  | |- _ => first [ reflexivity | by vm_compute ]
  end.

Example unwatched_repository_ignored :
  outcome (sample_run config (sample_event "X-GitHub-Event" unwatched_body))
  = Ret {| statusCode := 200;
           body := "Ignored based on non-watched base repository (1)" |}.
Proof. reflexivity. Qed.

Example other_event_ignored :
  outcome (sample_run config
             {| headers := {["X-GitHub-Event" := "push"]};
                multiValueHeaders := ∅; httpMethod := "POST"; path := "/";
                event_body := "oops" |})
  = Ret {| statusCode := 200; body := "Ignored based on X-GitHub-Event value" |}.
Proof. reflexivity. Qed.

(** C1: the conclusions the handler posts about are the literal tuple of
    line 158, not [config["conclusions"]]: with [cancelled] among the
    configured conclusions, a check suite that ended [cancelled] on a
    watched repository and branch is still ignored, and the reason names
    the literal tuple. *)
Theorem C1_configured_conclusions_not_consulted :
  "cancelled" ∈ conclusions config_cancelled
  ∧ sample_loads cancelled_body = inr (sample_payload "cancelled" [])
  ∧ outcome (sample_run config_cancelled
               (sample_event "X-GitHub-Event" cancelled_body))
    = Ret {| statusCode := 200;
             body := "Ignored based on check_suite conclusion not in ('failure', 'action_required', 'timed_out')" |}.
Proof. split; [by left |]. split; reflexivity. Qed.

(** C2, as stated, fails: a header supplied as [x-github-event], which a
    lookup insensitive to case would find, is not found, and the handler
    replies that the header is missing. *)
Lemma C2_lowercase_header_is_missed :
  headers (sample_event "x-github-event" branch_body) !! "x-github-event"
  = Some "check_suite"
  ∧ lower "x-github-event" = lower "X-GitHub-Event"
  ∧ outcome (sample_run config (sample_event "x-github-event" branch_body))
    = Ret {| statusCode := 400; body := "Missing X-GitHub-Event header" |}.
Proof. repeat split; reflexivity. Qed.

Lemma C2_witness :
  headers (sample_event "x-github-event" branch_body) !! "X-GitHub-Event" = None
  ∧ outcome (sample_run config (sample_event "x-github-event" branch_body))
    = Ret {| statusCode := 400; body := "Missing X-GitHub-Event header" |}.
Proof.
  split; [reflexivity |].
  apply (@C2_header_lookup_is_exact sample_loads sample_repr_string
           sample_repr_json sample_repr_event () config
           (sample_event "x-github-event" branch_body) ()).
  reflexivity.
Defined.

Lemma C3_witness :
  commit_vars config (sample_suite "failure" sample_prs)
    (Some (sample_pr 42 23038334)) (JStr "master")
    (JStr "https://github.com/crawl") (JStr "crawl")
  = Ret ("PR #42", "https://github.com/crawl/crawl/pull/42#partial-pull-merging")
  ∧ sample_run config (sample_event "X-GitHub-Event" pr_body)
    = (["DEBUG: Hello. Event: <event>";
        "DEBUG: Looking for PRs in [23038334, 33104844]";
        "DEBUG: PR <json> is a match";
        "DEBUG: Message is: Build failure at PR #42 (by Alice). Details: https://github.com/crawl/crawl/pull/42#partial-pull-merging";
        "DEBUG: Sending reply: " +:+ repr acknowledgement],
       Ret acknowledgement).
Proof.
  apply (@C3_pull_request_wins_over_branch sample_loads sample_repr_string
           sample_repr_json sample_repr_event () config
           (sample_event "X-GitHub-Event" pr_body) ()
           (sample_payload "failure" sample_prs)
           (sample_suite "failure" sample_prs) "failure"
           [sample_pr 7 5] [sample_pr 43 23038334] (sample_pr 42 23038334)
           (JStr "master") (JStr "https://github.com/crawl") (JStr "crawl")
           (JStr "Alice") (JInt 42)
           "Build failure at PR #42 (by Alice). Details: https://github.com/crawl/crawl/pull/42#partial-pull-merging");
    sample_fact.
Defined.

Lemma C4_witness :
  outcome (sample_run config (sample_event "X-GitHub-Event" branch_body))
  = Ret {| statusCode := 200;
           body := "{" +:+ dquote +:+ "message" +:+ dquote +:+ ": " +:+ dquote
                   +:+ "We cared about this message!" +:+ dquote +:+ "}" |}
  ∧ ∃ before,
      printed (sample_run config (sample_event "X-GitHub-Event" branch_body))
      = before
        ++ ["DEBUG: Message is: Build failure at 01234567 (branch master) (by Alice). Details: https://github.com/crawl/crawl/commit/01234567";
            "DEBUG: Sending reply: " +:+ repr acknowledgement].
Proof.
  apply (@C4_alert_is_acknowledged_only sample_loads sample_repr_string
           sample_repr_json sample_repr_event () config
           (sample_event "X-GitHub-Event" branch_body) ()
           (sample_payload "failure" []) (sample_suite "failure" []) "failure"
           None (JStr "master") (JStr "https://github.com/crawl") (JStr "crawl")
           (JStr "Alice")
           ("01234567 (branch master)",
            "https://github.com/crawl/crawl/commit/01234567")
           "Build failure at 01234567 (branch master) (by Alice). Details: https://github.com/crawl/crawl/commit/01234567");
    try sample_fact.
  apply selected_branch; sample_fact.
Defined.

Lemma C5_witness :
  outcome (sample_run config (sample_event "X-GitHub-Event" requested_body))
  = Ret {| statusCode := 200; body := "Ignored based on action != completed" |}
  ∧ (early_failure config requested_payload "Ignored based on action != completed" →
     printed (sample_run config (sample_event "X-GitHub-Event" requested_body))
     = ["DEBUG: Hello. Event: <event>";
        "DEBUG: Sending reply: {'statusCode': 200, 'body': 'Ignored based on action != completed'}"]).
Proof.
  apply (@C5_first_failing_step_decides sample_loads sample_repr_string
           sample_repr_json sample_repr_event () config
           (sample_event "X-GitHub-Event" requested_body) ()
           requested_payload "Ignored based on action != completed").
  - sample_fact.
  - apply fails_early. eapply fails_action; reflexivity.
Defined.

Lemma C6_witness :
  find_matching_pr config sample_prs
  = (["DEBUG: PR <json> is a match"], Ret (Some (sample_pr 42 23038334)))
  ∧ printed (sample_run config (sample_event "X-GitHub-Event" pr_body))
    = ["DEBUG: Hello. Event: <event>";
       "DEBUG: Looking for PRs in [23038334, 33104844]";
       "DEBUG: PR <json> is a match";
       "DEBUG: Message is: Build failure at PR #42 (by Alice). Details: https://github.com/crawl/crawl/pull/42#partial-pull-merging";
       "DEBUG: Sending reply: " +:+ repr acknowledgement].
Proof.
  apply (@C6_first_matching_pull_request sample_loads sample_repr_string
           sample_repr_json sample_repr_event () config
           (sample_event "X-GitHub-Event" pr_body) ()
           (sample_payload "failure" sample_prs)
           (sample_suite "failure" sample_prs) "failure"
           [sample_pr 7 5] [sample_pr 43 23038334] (sample_pr 42 23038334)
           (JStr "master") (JStr "https://github.com/crawl") (JStr "crawl")
           (JStr "Alice") (JInt 42)
           "Build failure at PR #42 (by Alice). Details: https://github.com/crawl/crawl/pull/42#partial-pull-merging");
    sample_fact.
Defined.

Lemma C7_witness :
  commit_vars config (sample_suite "failure" []) None (JStr "master")
    (JStr "https://github.com/crawl") (JStr "crawl")
  = Ret ("01234567 (branch master)",
         "https://github.com/crawl/crawl/commit/01234567")
  ∧ sample_run config (sample_event "X-GitHub-Event" branch_body)
    = (["DEBUG: Hello. Event: <event>";
        "DEBUG: Looking for PRs in [23038334, 33104844]";
        "DEBUG: Alerting on branch master";
        "DEBUG: Message is: Build failure at 01234567 (branch master) (by Alice). Details: https://github.com/crawl/crawl/commit/01234567";
        "DEBUG: Sending reply: " +:+ repr acknowledgement],
       Ret acknowledgement).
Proof.
  apply (@C7_branch_variables sample_loads sample_repr_string
           sample_repr_json sample_repr_event () config
           (sample_event "X-GitHub-Event" branch_body) ()
           (sample_payload "failure" []) (sample_suite "failure" []) "failure"
           (JStr "https://github.com/crawl") (JStr "crawl") (JStr "Alice")
           "master" sample_sha
           "Build failure at 01234567 (branch master) (by Alice). Details: https://github.com/crawl/crawl/commit/01234567");
    sample_fact.
Defined.

Lemma C8_witness :
  sample_run config (sample_event "X-GitHub-Event" "oops")
  = (["DEBUG: Hello. Event: <event>";
      "DEBUG: Sending reply: {'statusCode': 400, 'body': 'Couldn't parse body (Expecting value: line 1 column 1 (char 0))'}"],
     Ret {| statusCode := 400;
            body := "Couldn't parse body (Expecting value: line 1 column 1 (char 0))" |}).
Proof.
  apply (@C8_unparsable_body_rejected sample_loads sample_repr_string
           sample_repr_json sample_repr_event () config
           (sample_event "X-GitHub-Event" "oops") ()
           "Expecting value: line 1 column 1 (char 0)");
    reflexivity.
Defined.

Lemma C9_witness :
  py_slice_to (JStr sample_sha) 64 = Ret (JStr sample_sha)
  ∧ commit_vars config_long_sha (sample_suite "failure" []) None (JStr "master")
      (JStr "https://github.com/crawl") (JStr "crawl")
    = Ret ("0123456789abcdef0123456789abcdef01234567 (branch master)",
           "https://github.com/crawl/crawl/commit/0123456789abcdef0123456789abcdef01234567")
  ∧ outcome (sample_run config_long_sha (sample_event "X-GitHub-Event" branch_body))
    = Ret acknowledgement
  ∧ "DEBUG: Message is: Build failure at 0123456789abcdef0123456789abcdef01234567 (branch master) (by Alice). Details: https://github.com/crawl/crawl/commit/0123456789abcdef0123456789abcdef01234567"
    ∈ printed (sample_run config_long_sha (sample_event "X-GitHub-Event" branch_body)).
Proof.
  apply (@C9_long_sha_length_keeps_sha sample_loads sample_repr_string
           sample_repr_json sample_repr_event () config_long_sha
           (sample_event "X-GitHub-Event" branch_body) ()
           (sample_payload "failure" []) (sample_suite "failure" []) "failure"
           (JStr "https://github.com/crawl") (JStr "crawl") (JStr "Alice")
           "master" sample_sha
           "Build failure at 0123456789abcdef0123456789abcdef01234567 (branch master) (by Alice). Details: https://github.com/crawl/crawl/commit/0123456789abcdef0123456789abcdef01234567");
    sample_fact.
Defined.

Lemma C10_witness :
  outcome (sample_run config (sample_event "X-GitHub-Event" cancelled_body))
  = Ret {| statusCode := 200;
           body := "Ignored based on check_suite conclusion not in ('failure', 'action_required', 'timed_out')" |}
  ∧ outcome (sample_run config (sample_event "X-GitHub-Event" stripped_body))
    = Ret {| statusCode := 200;
             body := "Ignored based on check_suite conclusion not in ('failure', 'action_required', 'timed_out')" |}
  ∧ ∀ ks x, ks ∈ late_fields →
      getpath (without_late_fields (sample_payload "cancelled" [])) ks ≠ Ret x.
Proof.
  apply (@C10_early_reply_needs_no_late_field sample_loads sample_repr_string
           sample_repr_json sample_repr_event () config
           (sample_event "X-GitHub-Event" cancelled_body)
           (sample_event "X-GitHub-Event" stripped_body) ()
           (sample_payload "cancelled" [])
           "Ignored based on check_suite conclusion not in ('failure', 'action_required', 'timed_out')").
  - sample_fact.
  - sample_fact.
  - eapply fails_conclusion; reflexivity.
Defined.

(** ** The further properties on the sample requests *)

Lemma handler_replies_witness :
  outcome (sample_run config (sample_event "X-GitHub-Event" branch_body))
  = Ret acknowledgement
  ∧ reply acknowledgement.
Proof.
  split; [reflexivity |].
  apply (@handler_replies sample_loads sample_repr_string sample_repr_json
           sample_repr_event () config
           (sample_event "X-GitHub-Event" branch_body) () acknowledgement).
  reflexivity.
Defined.

Lemma other_event_type_ignored_witness :
  sample_run config
    {| headers := {["X-GitHub-Event" := "push"]}; multiValueHeaders := ∅;
       httpMethod := "POST"; path := "/"; event_body := "oops" |}
  = (["DEBUG: Hello. Event: <event>";
      "DEBUG: Sending reply: {'statusCode': 200, 'body': 'Ignored based on X-GitHub-Event value'}"],
     Ret {| statusCode := 200; body := "Ignored based on X-GitHub-Event value" |}).
Proof.
  apply (@other_event_type_ignored sample_loads sample_repr_string
           sample_repr_json sample_repr_event () config
           {| headers := {["X-GitHub-Event" := "push"]}; multiValueHeaders := ∅;
              httpMethod := "POST"; path := "/"; event_body := "oops" |}
           () "push"); [reflexivity | discriminate].
Defined.

Lemma reply_is_printed_last_witness :
  ∃ between,
    ["DEBUG: Hello. Event: <event>";
     "DEBUG: Looking for PRs in [23038334, 33104844]";
     "DEBUG: Alerting on branch master";
     "DEBUG: Message is: Build failure at 01234567 (branch master) (by Alice). Details: https://github.com/crawl/crawl/commit/01234567";
     "DEBUG: Sending reply: " +:+ repr acknowledgement]
    = "DEBUG: Hello. Event: <event>"
        :: between ++ ["DEBUG: Sending reply: " +:+ repr acknowledgement].
Proof.
  apply (@reply_is_printed_last sample_loads sample_repr_string
           sample_repr_json sample_repr_event () config
           (sample_event "X-GitHub-Event" branch_body) ()).
  reflexivity.
Defined.

Lemma payload_without_action_raises_witness :
  edge_run config (sample_event "X-GitHub-Event" list_body)
  = (["DEBUG: Hello. Event: <event>"], Raise TypeError)
  ∧ edge_run config (sample_event "X-GitHub-Event" empty_object_body)
    = (["DEBUG: Hello. Event: <event>"], Raise (KeyError "action")).
Proof.
  split.
  - apply (proj1 (@payload_without_action_raises edge_loads sample_repr_string
                    sample_repr_json sample_repr_event () config
                    (sample_event "X-GitHub-Event" list_body) () (JArr [])
                    (conj eq_refl eq_refl))).
    discriminate.
  - apply (proj2 (@payload_without_action_raises edge_loads sample_repr_string
                    sample_repr_json sample_repr_event () config
                    (sample_event "X-GitHub-Event" empty_object_body) ()
                    (JObj ∅) (conj eq_refl eq_refl)) ∅); reflexivity.
Defined.

Lemma unreadable_pull_request_raises_witness :
  edge_run config (sample_event "X-GitHub-Event" bare_pr_body)
  = (["DEBUG: Hello. Event: <event>";
      "DEBUG: Looking for PRs in [23038334, 33104844]"],
     Raise (KeyError "base")).
Proof.
  apply (@unreadable_pull_request_raises edge_loads sample_repr_string
           sample_repr_json sample_repr_event () config
           (sample_event "X-GitHub-Event" bare_pr_body) ()
           (sample_payload "failure" [bare_pr; sample_pr 42 23038334])
           (sample_suite "failure" [bare_pr; sample_pr 42 23038334]) "failure"
           [] [sample_pr 42 23038334] bare_pr (KeyError "base"));
    sample_fact.
Defined.

Lemma pull_request_path_reads_head_branch_witness :
  edge_run config (sample_event "X-GitHub-Event" no_branch_body)
  = (["DEBUG: Hello. Event: <event>";
      "DEBUG: Looking for PRs in [23038334, 33104844]";
      "DEBUG: PR <json> is a match"],
     Raise (KeyError "head_branch")).
Proof.
  apply (@pull_request_path_reads_head_branch edge_loads sample_repr_string
           sample_repr_json sample_repr_event () config
           (sample_event "X-GitHub-Event" no_branch_body) ()
           no_branch_payload no_branch_suite "failure"
           [] [] (sample_pr 42 23038334) (KeyError "head_branch"));
    sample_fact.
Defined.

Lemma find_matching_pr_sound_witness :
  ∃ pre post,
    sample_prs = pre ++ sample_pr 42 23038334 :: post
    ∧ Forall (base_watched config false) pre
    ∧ base_watched config true (sample_pr 42 23038334).
Proof.
  apply (@find_matching_pr_sound sample_repr_json config sample_prs
           ["DEBUG: PR <json> is a match"] (Some (sample_pr 42 23038334))).
  reflexivity.
Defined.

Lemma format_field_witness :
  format "Build on {branch}: {conclusion}" [("conclusion", "failure")]
  = Raise (KeyError "branch").
Proof.
  apply (format_field [("conclusion", "failure")] "Build on " "branch"
           ": {conclusion}"); reflexivity.
Defined.

Lemma format_without_fields_witness :
  format "Build failed" [("conclusion", "failure")] = Ret "Build failed".
Proof. apply format_without_fields. reflexivity. Defined.

Lemma unknown_placeholder_raises_witness :
  outcome (sample_run config_unknown_field
             (sample_event "X-GitHub-Event" branch_body))
  = Raise (KeyError "branch").
Proof.
  apply (@unknown_placeholder_raises sample_loads sample_repr_string
           sample_repr_json sample_repr_event () config_unknown_field
           (sample_event "X-GitHub-Event" branch_body) ()
           (sample_payload "failure" []) (sample_suite "failure" []) "failure"
           None (JStr "master") (JStr "https://github.com/crawl") (JStr "crawl")
           (JStr "Alice")
           ("01234567 (branch master)",
            "https://github.com/crawl/crawl/commit/01234567")
           "Build on " "branch" ": {conclusion}");
    try sample_fact.
  - apply selected_branch; sample_fact.
  - rewrite !not_elem_of_cons. repeat split; try discriminate.
    apply not_elem_of_nil.
Defined.
